(** * AWS infrastructure change notifications to Slack: a shallow embedding

    The program is one Python module with three functions:
    [extract_resource_details], [lambda_handler] and
    [send_slack_notification].  The event handed to the handler is the
    result of decoding a JSON document, so every value the code touches is a
    JSON value; the code is dynamically typed, and which operation raises on
    which kind of value decides most of its behaviour.  This file therefore
    starts with the fragment of Python the module uses (values, strings,
    [dict.get], [in], subscripting, [str.split], truthiness, [json.dumps],
    exceptions), then embeds the three functions line by line, and then
    states and proves the properties.

    The nested f-string of the handler carries a backslash inside a
    replacement field, which CPython accepts from version 3.12 on.  The
    messages of [AttributeError] and [KeyError] are the interpreter's fixed
    ones; the message of the [TypeError] of a membership test differs
    between versions and no property depends on it. *)

From Stdlib Require Import ZArith NArith List String Ascii Bool Lia.
From Stdlib Require Import Floats.PrimFloat DecimalString.
Import ListNotations.

#[local] Set Warnings "-register-all".
#[local] Open Scope N_scope.

(** ** Python strings *)

(** A Python [str] is a sequence of Unicode code points. *)
Abbreviation codepoint := N (only parsing).
Definition pystr := list codepoint.

(** String literals of the source are written as UTF-8 text and decoded to
    code points, one byte at a time: [pending] counts the continuation bytes
    still expected, [acc] holds the bits read so far, and a code point is
    emitted when no continuation byte is left. *)
Definition utf8_pending (pending : nat) (b : N) : nat :=
  match pending with
  | O => if b <? 0x80 then 0 else if b <? 0xE0 then 1 else if b <? 0xF0 then 2 else 3
  | S k => k
  end.

Definition utf8_acc (pending : nat) (acc b : N) : N :=
  match pending with
  | O =>
    if b <? 0x80 then b
    else if b <? 0xE0 then N.land b 0x1F
    else if b <? 0xF0 then N.land b 0x0F
    else N.land b 0x07
  | S _ => N.lor (N.shiftl acc 6) (N.land b 0x3F)
  end.

Definition utf8_emit (pending : nat) (acc : N) : pystr :=
  match pending with
  | O => [acc]
  | S _ => []
  end.

Fixpoint utf8_decode_from (pending : nat) (acc : N) (bs : list N) : pystr :=
  match bs with
  | [] => []
  | b :: rest =>
    utf8_emit (utf8_pending pending b) (utf8_acc pending acc b)
    ++ utf8_decode_from (utf8_pending pending b) (utf8_acc pending acc b) rest
  end.

Definition utf8_decode (bs : list N) : pystr := utf8_decode_from 0 0 bs.

Definition py (s : string) : pystr :=
  utf8_decode (map N_of_ascii (list_ascii_of_string s)).

(** The line feed, written [\n] in the source. *)
Definition nl : pystr := [10].

Fixpoint str_eqb (s t : pystr) : bool :=
  match s, t with
  | [], [] => true
  | a :: s', b :: t' => (a =? b) && str_eqb s' t'
  | _, _ => false
  end.

Fixpoint is_prefix (p s : pystr) : bool :=
  match p, s with
  | [], _ => true
  | a :: p', b :: s' => (a =? b) && is_prefix p' s'
  | _ :: _, [] => false
  end.

(** [needle in hay] for two strings: some slice of [hay] equals [needle]. *)
Fixpoint str_contains (needle hay : pystr) : bool :=
  is_prefix needle hay
  || match hay with
     | [] => false
     | _ :: rest => str_contains needle rest
     end.

(** [s.split(sep)] for a non-empty separator: scan left to right, cut at each
    occurrence of [sep] and resume after it.  [skip] counts the code points
    of a matched separator still to be dropped, [cur] is the current piece in
    reverse. *)
Fixpoint split_from (sep : pystr) (skip : nat) (cur s : pystr) : list pystr :=
  match s with
  | [] => [rev cur]
  | c :: s' =>
    match skip with
    | S k => split_from sep k cur s'
    | O =>
      if is_prefix sep s
      then rev cur :: split_from sep (List.length sep - 1) [] s'
      else split_from sep O (c :: cur) s'
    end
  end.

Definition str_split (sep s : pystr) : list pystr := split_from sep 0 [] s.

Fixpoint str_join (sep : pystr) (parts : list pystr) : pystr :=
  match parts with
  | [] => []
  | [p] => p
  | p :: rest => p ++ sep ++ str_join sep rest
  end.

(** ** Values *)

(** What [json.loads] produces: [None], booleans, integers, floats, strings,
    lists, and dictionaries with string keys.  A dictionary keeps insertion
    order, which [json.dumps] and [repr] show, so it is an association list;
    the keys of a Python dict are pairwise distinct, and lookup takes the
    first binding.  Integers are unbounded; the decoder only yields those
    within the interpreter's limit on decimal digits, for which [str] is
    total. *)
Inductive Value : Type :=
| VNone
| VBool (b : bool)
| VInt (z : Z)
| VFloat (f : float)
| VStr (s : pystr)
| VList (l : list Value)
| VDict (d : list (pystr * Value)).

Definition dict := list (pystr * Value).

Fixpoint dict_lookup (k : pystr) (d : dict) : option Value :=
  match d with
  | [] => None
  | (k', v) :: rest => if str_eqb k k' then Some v else dict_lookup k rest
  end.

(** The value of [d.get(k, default)] on a dictionary. *)
Definition lookup_or (k : pystr) (d : dict) (default : Value) : Value :=
  match dict_lookup k d with
  | Some x => x
  | None => default
  end.

Definition type_name (v : Value) : pystr :=
  match v with
  | VNone => py "NoneType"
  | VBool _ => py "bool"
  | VInt _ => py "int"
  | VFloat _ => py "float"
  | VStr _ => py "str"
  | VList _ => py "list"
  | VDict _ => py "dict"
  end.

(** Truth value testing ([if x:], [x or y], [x and y], [not x]). *)
Definition truthy (v : Value) : bool :=
  match v with
  | VNone => false
  | VBool b => b
  | VInt z => negb (Z.eqb z 0)
  | VFloat f => negb (PrimFloat.eqb f PrimFloat.zero)
  | VStr s => match s with [] => false | _ => true end
  | VList l => match l with [] => false | _ => true end
  | VDict d => match d with [] => false | _ => true end
  end.

(** [v == s] for a string literal [s]: only an equal string compares equal. *)
Definition eq_str (v : Value) (s : pystr) : bool :=
  match v with
  | VStr t => str_eqb t s
  | _ => false
  end.

(** [v in [s1, s2, ...]] for a list of string literals. *)
Definition in_list (v : Value) (names : list pystr) : bool :=
  existsb (eq_str v) names.

Definition int_repr (z : Z) : pystr :=
  py (NilZero.string_of_int (Z.to_int z)).

(** ** Exceptions and outcomes *)

(** Only subclasses of [Exception] occur.  [exc_msg] is [str(e)]. *)
Inductive ExcType : Type :=
| AttributeError
| TypeError
| KeyError
| IndexError
| ValueError
| UnicodeEncodeError
| OtherError (name : pystr).

Record Exc : Type := mkExc { exc_type : ExcType; exc_msg : pystr }.

(** The result of evaluating an expression: a value or a raised exception. *)
Inductive Outcome (A : Type) : Type :=
| Ret (a : A)
| Raise (e : Exc).
Arguments Ret {A} a.
Arguments Raise {A} e.

Definition obind {A B : Type} (o : Outcome A) (k : A -> Outcome B) : Outcome B :=
  match o with
  | Ret a => k a
  | Raise e => Raise e
  end.

Declare Scope outcome_scope.
Delimit Scope outcome_scope with outcome.
Notation "x <- c ;; k" := (obind c (fun x => k))
  (at level 61, c at next level, right associativity) : outcome_scope.

(** ** Operations on values *)

Definition no_attribute (v : Value) (attr : pystr) : Exc :=
  mkExc AttributeError
    (py "'" ++ type_name v ++ py "' object has no attribute '" ++ attr ++ py "'").

(** [v.get(key, default)]: [dict.get] on a dictionary, [AttributeError] on
    anything else (no other JSON value has a [get] attribute). *)
Definition get (v : Value) (key : pystr) (default : Value) : Outcome Value :=
  match v with
  | VDict d => Ret (lookup_or key d default)
  | _ => Raise (no_attribute v (py "get"))
  end.

(** [needle in v] for a string literal [needle]: substring test on a string,
    element test on a list, key test on a dictionary, [TypeError] otherwise.
    The text of that [TypeError] is worded differently from one interpreter
    version to the next; the text below is one of them, and the properties
    rely on the type of the exception only, never on this text. *)
Definition contains (needle : pystr) (v : Value) : Outcome bool :=
  match v with
  | VStr s => Ret (str_contains needle s)
  | VList l => Ret (existsb (fun x => eq_str x needle) l)
  | VDict d =>
    Ret (match dict_lookup needle d with
         | Some _ => true
         | None => false
         end)
  | _ =>
    Raise (mkExc TypeError
             (py "argument of type '" ++ type_name v ++ py "' is not iterable"))
  end.

(** [v[i]] for an integer literal [i]. *)
Definition subscript (v : Value) (i : Z) : Outcome Value :=
  match v with
  | VList l =>
    let n := Z.of_nat (List.length l) in
    let j := if (i <? 0)%Z then (i + n)%Z else i in
    if ((0 <=? j) && (j <? n))%Z
    then Ret (nth (Z.to_nat j) l VNone)
    else Raise (mkExc IndexError (py "list index out of range"))
  | VStr s =>
    let n := Z.of_nat (List.length s) in
    let j := if (i <? 0)%Z then (i + n)%Z else i in
    if ((0 <=? j) && (j <? n))%Z
    then Ret (VStr [nth (Z.to_nat j) s 0])
    else Raise (mkExc IndexError (py "string index out of range"))
  | VDict _ =>
    (* the keys are strings, an integer key is never present; str(e) of a
       KeyError is the repr of the key *)
    Raise (mkExc KeyError (int_repr i))
  | _ =>
    Raise (mkExc TypeError
             (py "'" ++ type_name v ++ py "' object is not subscriptable"))
  end.

(** [v.split(sep)]: only strings have the method. *)
Definition split (v : Value) (sep : pystr) : Outcome Value :=
  match v with
  | VStr s =>
    match sep with
    | [] => Raise (mkExc ValueError (py "empty separator"))
    | _ => Ret (VList (map VStr (str_split sep s)))
    end
  | _ => Raise (no_attribute v (py "split"))
  end.

(** ** The runtime: interpreter builtins, process environment, urllib *)

(** What [urllib.request.Request(url, data=..., headers=...)] holds. *)
Record Request : Type := mkRequest {
  req_url : pystr;
  req_data : list N;
  req_headers : list (pystr * pystr)
}.

(** The parts of the Python runtime the module calls and does not define.
    [py_repr] is the builtin [repr], used where a float, list or dictionary
    is formatted; [os_environ] is the process environment at import time;
    [request_error] is the exception the constructor of
    [urllib.request.Request] raises for a URL it cannot parse ([ValueError],
    "unknown url type"), if any; [urlopen] is the outcome of
    [urllib.request.urlopen] on a request: the status of the response, or
    the exception raised (closing the response on leaving the [with] block
    is taken not to raise). *)
Record Runtime : Type := mkRuntime {
  py_repr : Value -> pystr;
  os_environ : list (pystr * pystr);
  request_error : pystr -> option Exc;
  urlopen : Request -> Outcome Z
}.

(** [str(v)], which is also what an f-string replacement field [{v}]
    produces. *)
Definition py_str (rt : Runtime) (v : Value) : pystr :=
  match v with
  | VStr s => s
  | VNone => py "None"
  | VBool true => py "True"
  | VBool false => py "False"
  | VInt z => int_repr z
  | _ => py_repr rt v
  end.

(** [os.environ.get(key, default)]. *)
Fixpoint environ_get (env : list (pystr * pystr)) (key default : pystr) : pystr :=
  match env with
  | [] => default
  | (k, v) :: rest => if str_eqb key k then v else environ_get rest key default
  end.

(** ** [json.dumps] with its default arguments *)

Definition hex_digit (n : N) : codepoint :=
  if n <? 10 then 48 + n else 87 + n.

(** ['\\u{0:04x}'.format(n)] for [n < 0x10000]. *)
Definition u_escape (n : N) : pystr :=
  [92; 117;
   hex_digit ((n / 4096) mod 16); hex_digit ((n / 256) mod 16);
   hex_digit ((n / 16) mod 16); hex_digit (n mod 16)].

(** The replacement of one code point in [encode_basestring_ascii]:
    backslash, double quote and the short escapes, printable ASCII kept,
    everything else as [\uXXXX], a surrogate pair above the BMP. *)
Definition escape_char (c : codepoint) : pystr :=
  if c =? 92 then [92; 92]
  else if c =? 34 then [92; 34]
  else if c =? 8 then [92; 98]
  else if c =? 12 then [92; 102]
  else if c =? 10 then [92; 110]
  else if c =? 13 then [92; 114]
  else if c =? 9 then [92; 116]
  else if (32 <=? c) && (c <=? 126) then [c]
  else if c <? 0x10000 then u_escape c
  else
    let n := c - 0x10000 in
    u_escape (N.lor 0xD800 (N.land (N.shiftr n 10) 0x3FF))
    ++ u_escape (N.lor 0xDC00 (N.land n 0x3FF)).

Definition encode_basestring_ascii (s : pystr) : pystr :=
  [34] ++ flat_map escape_char s ++ [34].

Definition float_json (rt : Runtime) (f : float) : pystr :=
  if PrimFloat.is_nan f then py "NaN"
  else if PrimFloat.is_infinity f then
    (if PrimFloat.ltb f PrimFloat.zero then py "-Infinity" else py "Infinity")
  else py_repr rt (VFloat f).

Fixpoint json_dumps (rt : Runtime) (v : Value) : pystr :=
  match v with
  | VNone => py "null"
  | VBool true => py "true"
  | VBool false => py "false"
  | VInt z => int_repr z
  | VFloat f => float_json rt f
  | VStr s => encode_basestring_ascii s
  | VList l => py "[" ++ str_join (py ", ") (map (json_dumps rt) l) ++ py "]"
  | VDict d =>
    py "{"
    ++ str_join (py ", ")
         (map (fun kv =>
                 match kv with
                 | (k, x) => encode_basestring_ascii k ++ py ": " ++ json_dumps rt x
                 end) d)
    ++ py "}"
  end.

(** ** [str.encode("utf-8")] *)

Definition is_surrogate (c : codepoint) : bool := (0xD800 <=? c) && (c <=? 0xDFFF).

Fixpoint surrogate_run (s : pystr) : N :=
  match s with
  | [] => 0
  | c :: rest => if is_surrogate c then 1 + surrogate_run rest else 0
  end.

Definition utf8_bytes (c : codepoint) : list N :=
  if c <? 0x80 then [c]
  else if c <? 0x800 then
    [N.lor 0xC0 (N.shiftr c 6); N.lor 0x80 (N.land c 0x3F)]
  else if c <? 0x10000 then
    [N.lor 0xE0 (N.shiftr c 12); N.lor 0x80 (N.land (N.shiftr c 6) 0x3F);
     N.lor 0x80 (N.land c 0x3F)]
  else
    [N.lor 0xF0 (N.shiftr c 18); N.lor 0x80 (N.land (N.shiftr c 12) 0x3F);
     N.lor 0x80 (N.land (N.shiftr c 6) 0x3F); N.lor 0x80 (N.land c 0x3F)].

Definition surrogates_not_allowed (pos : N) (s : pystr) : Exc :=
  mkExc UnicodeEncodeError
    (match s, surrogate_run s with
     | c :: _, 1 =>
       py "'utf-8' codec can't encode character '" ++ u_escape c
       ++ py "' in position " ++ int_repr (Z.of_N pos)
     | _, run =>
       py "'utf-8' codec can't encode characters in position "
       ++ int_repr (Z.of_N pos) ++ py "-" ++ int_repr (Z.of_N (pos + run - 1))
     end ++ py ": surrogates not allowed").

Fixpoint encode_from (pos : N) (s : pystr) : Outcome (list N) :=
  match s with
  | [] => Ret []
  | c :: rest =>
    if is_surrogate c then Raise (surrogates_not_allowed pos s)
    else obind (encode_from (pos + 1) rest) (fun bs => Ret (utf8_bytes c ++ bs))
  end.

Definition encode_utf8 (s : pystr) : Outcome (list N) := encode_from 0 s.

(** ** Effects *)

Inductive LogMethod : Type := info | error | exception.

Inductive FunName : Type := Fextract_resource_details | Fsend_slack_notification.

(** What an invocation does besides returning: calls of the module logger
    (format string and arguments, as passed), calls of the module's own
    functions, and calls of [urllib.request.urlopen]. *)
Inductive Effect : Type :=
| Log (m : LogMethod) (fmt : pystr) (args : list Value)
| Call (f : FunName)
| UrlOpen (req : Request).

(** Statements: a trace of effects and an outcome. *)
Definition M (A : Type) : Type := (list Effect * Outcome A)%type.

Definition mret {A : Type} (a : A) : M A := ([], Ret a).

Definition mbind {A B : Type} (m : M A) (k : A -> M B) : M B :=
  match m with
  | (t, Ret a) => let (t', o) := k a in (t ++ t', o)
  | (t, Raise e) => (t, Raise e)
  end.

Definition lift {A : Type} (o : Outcome A) : M A := ([], o).

Definition logger (m : LogMethod) (fmt : pystr) (args : list Value) : M unit :=
  ([Log m fmt args], Ret tt).

(** A call of one of the module's functions, recorded in the trace. *)
Definition call {A : Type} (f : FunName) (body : M A) : M A :=
  mbind ([Call f], Ret tt) (fun _ => body).

(** [try: body  except Exception as e: handler e]. *)
Definition try_except {A : Type} (body : M A) (handler : Exc -> M A) : M A :=
  match body with
  | (t, Ret a) => (t, Ret a)
  | (t, Raise e) => let (t', o) := handler e in (t ++ t', o)
  end.

Declare Scope stmt_scope.
Delimit Scope stmt_scope with stmt.
Notation "x <- c ;; k" := (mbind c (fun x => k))
  (at level 61, c at next level, right associativity) : stmt_scope.
Notation "c ;; k" := (mbind c (fun _ => k))
  (at level 61, right associativity) : stmt_scope.

(** ** The module *)

#[local] Open Scope outcome_scope.

(** [extract_resource_details(detail, event_name)], lines 13 to 90.  The
    function has no effect; it returns the pair or raises. *)
Definition extract_resource_details (detail event_name : Value)
  : Outcome (pystr * Value) :=
  let resourceKey := py "" in
  let resourceValue := VStr (py "") in
  response_elements <- get detail (py "responseElements") (VDict []) ;;
  request_parameters <- get detail (py "requestParameters") (VDict []) ;;
  if in_list event_name [py "TerminateInstances"; py "RunInstances"] then
    instances_set <- get response_elements (py "instancesSet") (VDict []) ;;
    items <- get instances_set (py "items") (VList []) ;;
    if truthy items then
      first <- subscript items 0 ;;
      resourceValue <- get first (py "instanceId") (VStr (py "")) ;;
      Ret (py "Instance_ID", resourceValue)
    else Ret (resourceKey, resourceValue)
  else if in_list event_name [py "CreateDBInstance"; py "DeleteDBInstance"] then
    resourceValue <- get response_elements (py "dBInstanceIdentifier") (VStr (py "")) ;;
    Ret (py "DB_Instance_ID", resourceValue)
  else if in_list event_name [py "CreateLoadBalancer"; py "DeleteLoadBalancer"] then
    load_balancers <- get response_elements (py "loadBalancers") (VList []) ;;
    if truthy load_balancers then
      first <- subscript load_balancers 0 ;;
      resourceValue <- get first (py "loadBalancerName") (VStr (py "")) ;;
      Ret (py "LoadBalancer_ID", resourceValue)
    else Ret (resourceKey, resourceValue)
  else if in_list event_name [py "CreateUser"; py "DeleteUser"] then
    user_info <- get response_elements (py "user") (VDict []) ;;
    resourceValue <- get user_info (py "userName") (VStr (py "")) ;;
    Ret (py "User_ID", resourceValue)
  else if in_list event_name [py "CreateGroup"; py "DeleteGroup"] then
    group_info <- get response_elements (py "group") (VDict []) ;;
    resourceValue <- get group_info (py "groupName") (VStr (py "")) ;;
    Ret (py "Group", resourceValue)
  else if in_list event_name [py "CreateRole"; py "DeleteRole"] then
    role_info <- get response_elements (py "role") (VDict []) ;;
    resourceValue <- get role_info (py "roleName") (VStr (py "")) ;;
    Ret (py "Role", resourceValue)
  else if in_list event_name [py "CreatePolicy"; py "DeletePolicy"] then
    policy_info <- get response_elements (py "policy") (VDict []) ;;
    resourceValue <- get policy_info (py "policyName") (VStr (py "")) ;;
    Ret (py "Policy", resourceValue)
  else if in_list event_name [py "CreateCluster"; py "DeleteCluster"] then
    cluster_info <- get response_elements (py "cluster") (VDict []) ;;
    resourceValue <- get cluster_info (py "clusterName") (VStr (py "")) ;;
    Ret (py "Cluster", resourceValue)
  else if in_list event_name [py "CreateRestApi"; py "DeleteRestApi"] then
    resourceValue <- get response_elements (py "id") (VStr (py "")) ;;
    Ret (py "RestApi", resourceValue)
  else if in_list event_name [py "CreatePipeline"; py "DeletePipeline"] then
    pipeline_info <- get response_elements (py "pipeline") (VDict []) ;;
    resourceValue <- get pipeline_info (py "pipelineName") (VStr (py "")) ;;
    Ret (py "Pipeline", resourceValue)
  else if in_list event_name [py "CreateProject"; py "DeleteProject"; py "UpdateProject"] then
    project_info <- get response_elements (py "project") (VDict []) ;;
    resourceValue <- get project_info (py "projectName") (VStr (py "")) ;;
    Ret (py "Project", resourceValue)
  else if in_list event_name [py "CreateApplication"; py "DeleteApplication"] then
    application_info <- get response_elements (py "application") (VDict []) ;;
    resourceValue <- get application_info (py "applicationName") (VStr (py "")) ;;
    Ret (py "Application", resourceValue)
  else if in_list event_name [py "CreateHostedZone"; py "DeleteHostedZone"] then
    hosted_zone_info <- get response_elements (py "hostedZone") (VDict []) ;;
    resourceValue <- get hosted_zone_info (py "id") (VStr (py "")) ;;
    Ret (py "HostedZone", resourceValue)
  else if eq_str event_name (py "CreateSecret") then
    resourceValue <- get request_parameters (py "name") (VStr (py "")) ;;
    Ret (py "Secret_ID", resourceValue)
  else if eq_str event_name (py "DeleteSecret") then
    resourceValue <- get response_elements (py "name") (VStr (py "")) ;;
    Ret (py "Secret_ID", resourceValue)
  else if in_list event_name [py "CreateRepository"; py "DeleteRepository"] then
    repository_info <- get response_elements (py "repository") (VDict []) ;;
    resourceValue <- get repository_info (py "repositoryName") (VStr (py "")) ;;
    Ret (py "Repository Name", resourceValue)
  else if in_list event_name [py "CreateAutoScalingGroup"; py "DeleteAutoScalingGroup"] then
    resourceValue <- get response_elements (py "autoScalingGroupName") (VStr (py "")) ;;
    Ret (py "AutoScalingGroup", resourceValue)
  else Ret (resourceKey, resourceValue).

(** [SLACK_WEBHOOK_URL = os.environ.get("SLACK_WEBHOOK_URL", "")], line 11. *)
Definition SLACK_WEBHOOK_URL (rt : Runtime) : pystr :=
  environ_get (os_environ rt) (py "SLACK_WEBHOOK_URL") (py "").

(** [urllib.request.Request(url, data=data, headers=headers)]. *)
Definition Request_new (rt : Runtime) (url : pystr) (data : list N)
    (headers : list (pystr * pystr)) : Outcome Request :=
  match request_error rt url with
  | Some e => Raise e
  | None => Ret (mkRequest url data headers)
  end.

(** [urllib.request.urlopen(req)]: the call is recorded, the runtime gives
    its outcome. *)
Definition urlopen_call (rt : Runtime) (req : Request) : M Z :=
  ([UrlOpen req], urlopen rt req).

#[local] Open Scope stmt_scope.

(** [send_slack_notification(message)], lines 148 to 166. *)
Definition send_slack_notification (rt : Runtime) (message : Value) : M unit :=
  if negb (truthy (VStr (SLACK_WEBHOOK_URL rt))) then
    logger error (py "SLACK_WEBHOOK_URL not set in environment variables.") []
  else
    data <- lift (encode_utf8 (json_dumps rt message)) ;;
    req <- lift (Request_new rt (SLACK_WEBHOOK_URL rt) data
                   [(py "Content-Type", py "application/json")]) ;;
    try_except
      (status <- urlopen_call rt req ;;
       logger info (py "Slack Notification Sent! Response Code: %s") [VInt status])
      (fun e =>
         logger error (py "Error sending Slack notification: %s") [VStr (exc_msg e)]).

(** The object the handler returns: [{"statusCode": ..., "body": ...}]. *)
Record Result : Type := mkResult { statusCode : Z; body : pystr }.

(** Lines 108 to 110: the actor. *)
Definition resolve_actor (user_identity : Value) : Outcome Value :=
  (first <- get user_identity (py "userName") VNone ;;
   user_name <- (if truthy first then Ret first
                 else get user_identity (py "principalId") (VStr (py "UnknownUser"))) ;;
   has_colon <- contains (py ":") user_name ;;
   if has_colon then
     parts <- split user_name (py ":") ;;
     subscript parts (-1)
   else Ret user_name)%outcome.

(** Lines 122 to 130: the text of the Slack message, an f-string. *)
Definition render (rt : Runtime) (user_name event_source event_name : Value)
    (resourceKey : pystr) (resourceValue aws_region event_time : Value) : pystr :=
  py "*AWS Infrastructure Change Detected! 🚨*" ++ nl
  ++ py "👤 User: `" ++ py_str rt user_name ++ py "`" ++ nl
  ++ py "🛠 Event Source: `" ++ py_str rt event_source ++ py "`" ++ nl
  ++ py "🛠 Event: `" ++ py_str rt event_name ++ py "`" ++ nl
  ++ (if truthy (VStr resourceKey) && truthy resourceValue
      then py "🛠 " ++ resourceKey ++ py ": `" ++ py_str rt resourceValue
           ++ py "`" ++ nl
      else py "")
  ++ py "🌍 Region: `" ++ py_str rt aws_region ++ py "`" ++ nl
  ++ py "🕒 Time: `" ++ py_str rt event_time ++ py "`" ++ nl.

(** Lines 112 to 143: the filter, and what follows it for an actor that
    passes. *)
Definition filter_and_notify (rt : Runtime)
    (detail event_name aws_region event_time event_source user_name : Value)
  : M Result :=
  notify <- lift (contains (py "@xyz.com") user_name) ;;
  if negb notify then
    logger info (py "User %s does not match notification criteria. Skipping.")
      [user_name] ;;
    mret (mkResult 200 (py "User not in notify list."))
  else
    kv <- call Fextract_resource_details
            (lift (extract_resource_details detail event_name)) ;;
    let (resourceKey, resourceValue) := kv in
    let slack_message :=
      VDict [(py "text",
              VStr (render rt user_name event_source event_name
                      resourceKey resourceValue aws_region event_time))] in
    logger info (py "Sending Slack alert: %s") [slack_message] ;;
    call Fsend_slack_notification (send_slack_notification rt slack_message) ;;
    mret (mkResult 200
            (json_dumps rt
               (VDict [(py "message", VStr (py "Notification sent"));
                       (py "slack_message", slack_message)]))).

(** The body of the [try] block of [lambda_handler], lines 100 to 143. *)
Definition handler_body (rt : Runtime) (event : Value) : M Result :=
  detail <- lift (get event (py "detail") (VDict [])) ;;
  event_name <- lift (get detail (py "eventName") (VStr (py "UnknownEvent"))) ;;
  user_identity <- lift (get detail (py "userIdentity") (VDict [])) ;;
  aws_region <- lift (get detail (py "awsRegion") (VStr (py "Unknown"))) ;;
  event_time <- lift (get detail (py "eventTime") (VStr (py "Unknown"))) ;;
  event_source <- lift (get detail (py "eventSource") (VStr (py "Unknown"))) ;;
  user_name <- lift (resolve_actor user_identity) ;;
  filter_and_notify rt detail event_name aws_region event_time event_source
    user_name.

(** [lambda_handler(event, context)], lines 92 to 146. *)
Definition lambda_handler (rt : Runtime) (event context : Value) : M Result :=
  logger info (py "Received event: %s") [VStr (json_dumps rt event)] ;;
  try_except (handler_body rt event)
    (fun e =>
       logger exception (py "Error processing event: %s") [VStr (exc_msg e)] ;;
       mret (mkResult 500 (py "Error processing event: " ++ exc_msg e))).

(** ** Vocabulary of the properties *)

(** The event names that have a rule in [extract_resource_details], in the
    order of its branches. *)
Definition registered_event_names : list pystr :=
  [py "TerminateInstances"; py "RunInstances";
   py "CreateDBInstance"; py "DeleteDBInstance";
   py "CreateLoadBalancer"; py "DeleteLoadBalancer";
   py "CreateUser"; py "DeleteUser";
   py "CreateGroup"; py "DeleteGroup";
   py "CreateRole"; py "DeleteRole";
   py "CreatePolicy"; py "DeletePolicy";
   py "CreateCluster"; py "DeleteCluster";
   py "CreateRestApi"; py "DeleteRestApi";
   py "CreatePipeline"; py "DeletePipeline";
   py "CreateProject"; py "DeleteProject"; py "UpdateProject";
   py "CreateApplication"; py "DeleteApplication";
   py "CreateHostedZone"; py "DeleteHostedZone";
   py "CreateSecret"; py "DeleteSecret";
   py "CreateRepository"; py "DeleteRepository";
   py "CreateAutoScalingGroup"; py "DeleteAutoScalingGroup"].

(** A field is absent, or present with a value that passes [ok]. *)
Definition field_ok (ok : Value -> bool) (d : dict) (k : pystr) : bool :=
  match dict_lookup k d with
  | Some v => ok v
  | None => true
  end.

Definition is_dict (v : Value) : bool :=
  match v with
  | VDict _ => true
  | _ => false
  end.

(** A value whose first element a rule can take: a falsy value, which the
    truth test of lines 26 and 34 sets aside whatever its type, or a list
    that starts with a mapping. *)
Definition first_readable (v : Value) : bool :=
  negb (truthy v)
  || match v with
     | VList (VDict _ :: _) => true
     | _ => false
     end.

(** *** The extraction rules as a table

    The specification describes the extractor as a table from event names
    to rules: which of [responseElements] and [requestParameters] to read, a
    chain of keys into it, whether the value reached is a list whose first
    element is taken, the key of the identifier and the label of the
    result.  The table below is the if-chain of the source read that way;
    [extract_follows_table] proves that the function computes what the
    table says. *)
Inductive Source : Type := FromResponse | FromRequest.

Record Rule : Type := mkRule {
  rule_names : list pystr;
  rule_label : pystr;
  rule_source : Source;
  rule_path : list pystr;
  rule_first : bool;
  rule_leaf : pystr
}.

Definition extraction_table : list Rule :=
  [
   mkRule [py "TerminateInstances"; py "RunInstances"]
     (py "Instance_ID") FromResponse [py "instancesSet"; py "items"] true (py "instanceId");
   mkRule [py "CreateDBInstance"; py "DeleteDBInstance"]
     (py "DB_Instance_ID") FromResponse [] false (py "dBInstanceIdentifier");
   mkRule [py "CreateLoadBalancer"; py "DeleteLoadBalancer"]
     (py "LoadBalancer_ID") FromResponse [py "loadBalancers"] true (py "loadBalancerName");
   mkRule [py "CreateUser"; py "DeleteUser"]
     (py "User_ID") FromResponse [py "user"] false (py "userName");
   mkRule [py "CreateGroup"; py "DeleteGroup"]
     (py "Group") FromResponse [py "group"] false (py "groupName");
   mkRule [py "CreateRole"; py "DeleteRole"]
     (py "Role") FromResponse [py "role"] false (py "roleName");
   mkRule [py "CreatePolicy"; py "DeletePolicy"]
     (py "Policy") FromResponse [py "policy"] false (py "policyName");
   mkRule [py "CreateCluster"; py "DeleteCluster"]
     (py "Cluster") FromResponse [py "cluster"] false (py "clusterName");
   mkRule [py "CreateRestApi"; py "DeleteRestApi"]
     (py "RestApi") FromResponse [] false (py "id");
   mkRule [py "CreatePipeline"; py "DeletePipeline"]
     (py "Pipeline") FromResponse [py "pipeline"] false (py "pipelineName");
   mkRule [py "CreateProject"; py "DeleteProject"; py "UpdateProject"]
     (py "Project") FromResponse [py "project"] false (py "projectName");
   mkRule [py "CreateApplication"; py "DeleteApplication"]
     (py "Application") FromResponse [py "application"] false (py "applicationName");
   mkRule [py "CreateHostedZone"; py "DeleteHostedZone"]
     (py "HostedZone") FromResponse [py "hostedZone"] false (py "id");
   mkRule [py "CreateSecret"]
     (py "Secret_ID") FromRequest [] false (py "name");
   mkRule [py "DeleteSecret"]
     (py "Secret_ID") FromResponse [] false (py "name");
   mkRule [py "CreateRepository"; py "DeleteRepository"]
     (py "Repository Name") FromResponse [py "repository"] false (py "repositoryName");
   mkRule [py "CreateAutoScalingGroup"; py "DeleteAutoScalingGroup"]
     (py "AutoScalingGroup") FromResponse [] false (py "autoScalingGroupName")
  ].

Fixpoint find_rule (event_name : Value) (table : list Rule) : option Rule :=
  match table with
  | [] => None
  | r :: rest =>
    if in_list event_name (rule_names r) then Some r else find_rule event_name rest
  end.

Definition rule_of (event_name : Value) : option Rule :=
  find_rule event_name extraction_table.

Definition source_key (r : Rule) : pystr :=
  match rule_source r with
  | FromResponse => py "responseElements"
  | FromRequest => py "requestParameters"
  end.

(** Follow the chain of keys with the defaults of the source: an empty
    mapping at every step, an empty list at the last step of a rule that
    takes a first element; then continue with what was reached. *)
Fixpoint walk {A : Type} (path : list pystr) (first : bool) (v : Value)
    (k : Value -> Outcome A) : Outcome A :=
  match path with
  | [] => k v
  | key :: rest =>
    match rest with
    | [] => obind (get v key (if first then VList [] else VDict [])) k
    | _ => obind (get v key (VDict [])) (fun x => walk rest first x k)
    end
  end.

Definition run_rule (r : Rule) (detail : Value) : Outcome (pystr * Value) :=
  (response_elements <- get detail (py "responseElements") (VDict []) ;;
   request_parameters <- get detail (py "requestParameters") (VDict []) ;;
   walk (rule_path r) (rule_first r)
     match rule_source r with
     | FromResponse => response_elements
     | FromRequest => request_parameters
     end
     (fun container =>
        if rule_first r then
          if truthy container then
            first <- subscript container 0 ;;
            resourceValue <- get first (rule_leaf r) (VStr (py "")) ;;
            Ret (rule_label r, resourceValue)
          else Ret (py "", VStr (py ""))
        else
          resourceValue <- get container (rule_leaf r) (VStr (py "")) ;;
          Ret (rule_label r, resourceValue)))%outcome.

(** What a rule does with the value its chain of keys leads to. *)
Definition rule_result (r : Rule) (container : Value) : Outcome (pystr * Value) :=
  (if rule_first r then
     if truthy container then
       first <- subscript container 0 ;;
       resourceValue <- get first (rule_leaf r) (VStr (py "")) ;;
       Ret (rule_label r, resourceValue)
     else Ret (py "", VStr (py ""))
   else
     resourceValue <- get container (rule_leaf r) (VStr (py "")) ;;
     Ret (rule_label r, resourceValue))%outcome.

Definition extract_by_table (detail event_name : Value) : Outcome (pystr * Value) :=
  match rule_of event_name with
  | Some r => run_rule r detail
  | None =>
    (response_elements <- get detail (py "responseElements") (VDict []) ;;
     request_parameters <- get detail (py "requestParameters") (VDict []) ;;
     Ret (py "", VStr (py "")))%outcome
  end.

(** What a rule needs of the value it starts from: every value it reads a
    key from is a mapping, and the value it takes the first element of, if
    it is there, is falsy or a list that starts with a mapping.  A missing
    key is fine. *)
Fixpoint path_ok (path : list pystr) (first : bool) (v : Value) : bool :=
  match v with
  | VDict d =>
    match path with
    | [] => true
    | key :: rest =>
      match rest with
      | [] => field_ok (if first then first_readable else is_dict) d key
      | _ => field_ok (path_ok rest first) d key
      end
    end
  | _ => false
  end.

(** The fields the rule of [event_name] traverses in [detail] are absent or
    of the expected type; an event name without a rule traverses nothing. *)
Definition well_shaped (event_name : Value) (detail : dict) : bool :=
  match rule_of event_name with
  | Some r => field_ok (path_ok (rule_path r) (rule_first r)) detail (source_key r)
  | None => true
  end.

(** The result of following a path of keys from a value: the value found,
    [Absent] when a key of the path is missing, [Mismatch] when the path
    runs into something that is not a mapping. *)
Inductive Field : Type :=
| Present (v : Value)
| Absent
| Mismatch.

Fixpoint traverse (path : list pystr) (v : Value) : Field :=
  match path with
  | [] => Present v
  | k :: rest =>
    match v with
    | VDict d =>
      match dict_lookup k d with
      | Some x => traverse rest x
      | None => Absent
      end
    | _ => Mismatch
    end
  end.

(** The identifier the rule of [event_name] leads to in [detail], if there
    is one: the value at the end of the rule's chain of keys, taken from the
    first element where the rule reads a list. *)
Definition identifier (event_name : Value) (detail : dict) : option Value :=
  match rule_of event_name with
  | Some r =>
    if rule_first r then
      match traverse (source_key r :: rule_path r) (VDict detail) with
      | Present (VList (VDict first :: _)) => dict_lookup (rule_leaf r) first
      | _ => None
      end
    else
      match traverse (source_key r :: rule_path r ++ [rule_leaf r]) (VDict detail) with
      | Present v => Some v
      | _ => None
      end
  | None => None
  end.

(** [r] is what follows the last colon of [s], or [s] itself when [s] has no
    colon (58 is the colon). *)
Definition after_last_colon (s r : pystr) : Prop :=
  (~ In 58 s /\ r = s) \/ (exists a, s = a ++ 58 :: r /\ ~ In 58 r).

(** The actor the handler has resolved when it reaches the filter: lines
    100, 102 and 108 to 110. *)
Definition resolved_actor (event : Value) : Outcome Value :=
  (detail <- get event (py "detail") (VDict []) ;;
   user_identity <- get detail (py "userIdentity") (VDict []) ;;
   resolve_actor user_identity)%outcome.

(** The envelope as the handler reads it, for an event it can parse: the
    detail mapping and its fields with the defaults of lines 100 to 105. *)
Definition detail_of (event : Value) : Value :=
  match event with
  | VDict ev => lookup_or (py "detail") ev (VDict [])
  | _ => VDict []
  end.

Definition detail_field (event : Value) (k default : pystr) : Value :=
  match detail_of event with
  | VDict d => lookup_or k d (VStr default)
  | _ => VStr default
  end.

(** The text of the message for an event, its actor and its resource. *)
Definition message_text (rt : Runtime) (event user_name : Value)
    (resourceKey : pystr) (resourceValue : Value) : pystr :=
  render rt user_name
    (detail_field event (py "eventSource") (py "Unknown"))
    (detail_field event (py "eventName") (py "UnknownEvent"))
    resourceKey resourceValue
    (detail_field event (py "awsRegion") (py "Unknown"))
    (detail_field event (py "eventTime") (py "Unknown")).

(** The request the delivery step builds for a message text; the payload is
    plain ASCII, so its UTF-8 bytes are its code points. *)
Definition slack_request (rt : Runtime) (text : pystr) : Request :=
  mkRequest (SLACK_WEBHOOK_URL rt)
    (json_dumps rt (VDict [(py "text", VStr text)]))
    [(py "Content-Type", py "application/json")].

(** Strings of code points below 128. *)
Definition plain_ascii (s : pystr) : Prop := Forall (fun c => c < 128) s.

(** The first record of every invocation, line 97. *)
Definition received (rt : Runtime) (event : Value) : Effect :=
  Log info (py "Received event: %s") [VStr (json_dumps rt event)].

(** What the delivery step leaves in the log after [urlopen]. *)
Definition delivery_record (o : Outcome Z) : Effect :=
  match o with
  | Ret status => Log info (py "Slack Notification Sent! Response Code: %s") [VInt status]
  | Raise e => Log error (py "Error sending Slack notification: %s") [VStr (exc_msg e)]
  end.

(** Reading a trace. *)
Definition calls (f : FunName) (t : list Effect) : bool :=
  existsb (fun e =>
             match e, f with
             | Call Fextract_resource_details, Fextract_resource_details => true
             | Call Fsend_slack_notification, Fsend_slack_notification => true
             | _, _ => false
             end) t.

Fixpoint outbound (t : list Effect) : list Request :=
  match t with
  | [] => []
  | UrlOpen req :: rest => req :: outbound rest
  | _ :: rest => outbound rest
  end.

(** The lines of the message. *)
Definition header_line : pystr :=
  py "*AWS Infrastructure Change Detected! 🚨*" ++ nl.
Definition user_line (rt : Runtime) (v : Value) : pystr :=
  py "👤 User: `" ++ py_str rt v ++ py "`" ++ nl.
Definition source_line (rt : Runtime) (v : Value) : pystr :=
  py "🛠 Event Source: `" ++ py_str rt v ++ py "`" ++ nl.
Definition event_line (rt : Runtime) (v : Value) : pystr :=
  py "🛠 Event: `" ++ py_str rt v ++ py "`" ++ nl.
Definition resource_line (rt : Runtime) (k : pystr) (v : Value) : pystr :=
  py "🛠 " ++ k ++ py ": `" ++ py_str rt v ++ py "`" ++ nl.
Definition region_line (rt : Runtime) (v : Value) : pystr :=
  py "🌍 Region: `" ++ py_str rt v ++ py "`" ++ nl.
Definition time_line (rt : Runtime) (v : Value) : pystr :=
  py "🕒 Time: `" ++ py_str rt v ++ py "`" ++ nl.

(** The conditional line of the f-string. *)
Definition resource_part (rt : Runtime) (k : pystr) (v : Value) : pystr :=
  if truthy (VStr k) && truthy v then resource_line rt k v else [].

Definition skipped : Result := mkResult 200 (py "User not in notify list.").

(** The result of a processed event: the body is
    [json.dumps({"message": "Notification sent", "slack_message": {"text": text}})]. *)
Definition notified (rt : Runtime) (text : pystr) : Result :=
  mkResult 200
    (json_dumps rt
       (VDict [(py "message", VStr (py "Notification sent"));
               (py "slack_message", VDict [(py "text", VStr text)])])).

Definition failed (e : Exc) : Result :=
  mkResult 500 (py "Error processing event: " ++ exc_msg e).

(** The record an invocation leaves when its [except] clause runs, line
    145. *)
Definition exc_record (e : Exc) : Effect :=
  Log exception (py "Error processing event: %s") [VStr (exc_msg e)].

Definition logs_exception (t : list Effect) : bool :=
  existsb (fun ef =>
             match ef with
             | Log exception _ _ => true
             | _ => false
             end) t.

(** The value line 108 binds to [user_name], before the namespace is
    stripped. *)
Definition chosen_actor (user_identity : dict) : Value :=
  if truthy (lookup_or (py "userName") user_identity VNone)
  then lookup_or (py "userName") user_identity VNone
  else lookup_or (py "principalId") user_identity (VStr (py "UnknownUser")).


Definition is_str (v : Value) : bool :=
  match v with
  | VStr _ => true
  | _ => false
  end.

(** Sample surroundings and events.  The samples hold strings only, so the
    [py_repr] of the sample runtimes is never consulted. *)
Definition sample_repr (v : Value) : pystr := py "<" ++ type_name v ++ py ">".

Definition unconfigured : Runtime :=
  mkRuntime sample_repr [] (fun _ => None) (fun _ => Ret 200%Z).

Definition unreachable : Runtime :=
  mkRuntime sample_repr
    [(py "SLACK_WEBHOOK_URL", py "https://hooks.slack.com/services/T0/B0/x")]
    (fun _ => None)
    (fun _ => Raise (mkExc (OtherError (py "URLError"))
                       (py "<urlopen error timed out>"))).

Definition reachable : Runtime :=
  mkRuntime sample_repr
    [(py "SLACK_WEBHOOK_URL", py "https://hooks.slack.com/services/T0/B0/x")]
    (fun _ => None) (fun _ => Ret 200%Z).

Definition malformed_url : Runtime :=
  mkRuntime sample_repr
    [(py "SLACK_WEBHOOK_URL", py "hooks.slack.com/services/T0/B0/x")]
    (fun url => Some (mkExc ValueError
                        (py "unknown url type: 'hooks.slack.com/services/T0/B0/x'")))
    (fun _ => Ret 200%Z).

Definition sample_event (event_name : pystr) (user_identity response : Value) : Value :=
  VDict [(py "detail",
          VDict [(py "eventName", VStr event_name);
                 (py "userIdentity", user_identity);
                 (py "awsRegion", VStr (py "eu-west-1"));
                 (py "eventTime", VStr (py "2024-05-01T10:00:00Z"));
                 (py "eventSource", VStr (py "ec2.amazonaws.com"));
                 (py "responseElements", response)])].

Definition one_instance : Value :=
  VDict [(py "instancesSet",
          VDict [(py "items", VList [VDict [(py "instanceId", VStr (py "i-0abc"))]])])].

#[global] Arguments py : simpl never.

(** * Properties *)

(** ** Strings *)

Lemma str_eqb_refl (s : pystr) : str_eqb s s = true.
Proof.
  induction s as [|c s IH]; simpl; [reflexivity|].
  now rewrite N.eqb_refl, IH.
Qed.

Lemma str_eqb_eq (s t : pystr) : str_eqb s t = true <-> s = t.
Proof.
  split.
  - revert t; induction s as [|a s IH]; intros [|b t]; simpl; try discriminate.
    + reflexivity.
    + intros H. apply andb_prop in H as [Hab Hst].
      apply N.eqb_eq in Hab. apply IH in Hst. now subst.
  - intros ->. apply str_eqb_refl.
Qed.

Lemma str_eqb_neq (s t : pystr) : s <> t -> str_eqb s t = false.
Proof.
  intros H. destruct (str_eqb s t) eqn:E; [|reflexivity].
  apply str_eqb_eq in E. contradiction.
Qed.

Lemma is_prefix_app (p s : pystr) : is_prefix p (p ++ s) = true.
Proof.
  induction p as [|c p IH]; simpl; [reflexivity|].
  now rewrite N.eqb_refl, IH.
Qed.

Lemma str_contains_skip (n a s : pystr) :
  str_contains n s = true -> str_contains n (a ++ s) = true.
Proof.
  intros H. induction a as [|c a IH]; simpl; [exact H|].
  rewrite IH. apply orb_true_r.
Qed.

(** A string contains every piece it is built around. *)
Lemma str_contains_mid (n a b : pystr) : str_contains n (a ++ n ++ b) = true.
Proof.
  apply str_contains_skip.
  destruct (n ++ b) eqn:E; simpl; rewrite <- ?E, is_prefix_app; reflexivity.
Qed.

Lemma str_contains_char (c : codepoint) (s : pystr) :
  str_contains [c] s = true <-> In c s.
Proof.
  induction s as [|x s IH]; simpl.
  - split; [discriminate|tauto].
  - rewrite andb_true_r, orb_true_iff, IH, N.eqb_eq. intuition.
Qed.

Lemma split_from_no_sep (c : codepoint) (s cur : pystr) :
  ~ In c s -> split_from [c] 0 cur s = [rev cur ++ s].
Proof.
  revert cur. induction s as [|x s IH]; intros cur H; simpl.
  - now rewrite app_nil_r.
  - assert (Hx : (c =? x) = false) by (apply N.eqb_neq; intros ->; apply H; now left).
    rewrite Hx; simpl. rewrite IH by (intros Hin; apply H; now right).
    simpl. now rewrite <- app_assoc.
Qed.

Lemma split_from_nonempty (sep : pystr) (skip : nat) (cur s : pystr) :
  split_from sep skip cur s <> [].
Proof.
  revert skip cur. induction s as [|x s IH]; intros skip cur; simpl.
  - discriminate.
  - destruct skip; [|apply IH].
    destruct (is_prefix sep (x :: s)); [discriminate|apply IH].
Qed.

(** The last piece of a split at a one-character separator is what follows
    the last occurrence of the separator. *)
Lemma split_from_last (c : codepoint) (a b cur : pystr) :
  ~ In c b -> last (split_from [c] 0 cur (a ++ c :: b)) [] = b.
Proof.
  intros Hb. revert cur. induction a as [|x a IH]; intros cur.
  - simpl. rewrite N.eqb_refl. simpl.
    now rewrite split_from_no_sep by assumption.
  - simpl. destruct (c =? x); simpl.
    + specialize (IH []).
      pose proof (split_from_nonempty [c] 0 [] (a ++ c :: b)) as Hne.
      destruct (split_from [c] 0 [] (a ++ c :: b)); [congruence|exact IH].
    + apply IH.
Qed.

Lemma nth_last (l : list Value) :
  l <> [] -> nth (List.length l - 1) l VNone = last l VNone.
Proof.
  induction l as [|x l IH]; [congruence|]. intros _.
  destruct l as [|y l]; [reflexivity|].
  change (last (x :: y :: l) VNone) with (last (y :: l) VNone).
  rewrite <- IH by discriminate.
  simpl List.length. rewrite !Nat.sub_succ, !Nat.sub_0_r. reflexivity.
Qed.

(** [l[-1]] on a non-empty list is its last element. *)
Lemma subscript_last (l : list Value) :
  l <> [] -> subscript (VList l) (-1) = Ret (last l VNone).
Proof.
  intros Hl. unfold subscript.
  assert (Hlen : (0 < List.length l)%nat) by (destruct l; simpl; [congruence|lia]).
  replace ((-1 <? 0)%Z) with true by reflexivity.
  replace ((0 <=? -1 + Z.of_nat (List.length l))%Z) with true
    by (symmetry; apply Z.leb_le; lia).
  replace ((-1 + Z.of_nat (List.length l) <? Z.of_nat (List.length l))%Z) with true
    by (symmetry; apply Z.ltb_lt; lia).
  cbv beta iota zeta. unfold andb. f_equal.
  replace (Z.to_nat (-1 + Z.of_nat (List.length l))) with (List.length l - 1)%nat by lia.
  now apply nth_last.
Qed.

Lemma last_map_VStr (parts : list pystr) :
  parts <> [] -> last (map VStr parts) VNone = VStr (last parts []).
Proof.
  induction parts as [|p parts IH]; [congruence|]. intros _.
  destruct parts as [|q parts]; [reflexivity|].
  change (last (map VStr (p :: q :: parts)) VNone)
    with (last (map VStr (q :: parts)) VNone).
  now rewrite IH by discriminate.
Qed.

(** ** Dictionaries and outcomes *)

Lemma get_dict (d : dict) (k : pystr) (default : Value) :
  get (VDict d) k default = Ret (lookup_or k d default).
Proof. reflexivity. Qed.

Lemma get_ret_inv (v : Value) (k : pystr) (default x : Value) :
  get v k default = Ret x -> exists d, v = VDict d /\ x = lookup_or k d default.
Proof.
  destruct v; simpl; try discriminate.
  intros H. injection H as <-. now eexists.
Qed.

Lemma field_ok_lookup_or (ok : Value -> bool) (d : dict) (k : pystr) (default : Value) :
  field_ok ok d k = true -> ok default = true -> ok (lookup_or k d default) = true.
Proof.
  unfold field_ok, lookup_or. now destruct (dict_lookup k d).
Qed.

Lemma is_dict_inv (v : Value) : is_dict v = true -> exists d, v = VDict d.
Proof. destruct v; simpl; try discriminate. now eexists. Qed.

(** ** The extractor *)

Lemma registered_eqb (name x : pystr) :
  ~ In name registered_event_names ->
  existsb (str_eqb x) registered_event_names = true ->
  str_eqb name x = false.
Proof.
  intros Hn Hx. apply str_eqb_neq. intros ->. apply Hn.
  apply existsb_exists in Hx as [y [Hy E]].
  apply str_eqb_eq in E. now subst.
Qed.

Lemma in_list_unregistered (name : pystr) (l : list pystr) :
  ~ In name registered_event_names ->
  forallb (fun x => existsb (str_eqb x) registered_event_names) l = true ->
  in_list (VStr name) l = false.
Proof.
  intros Hn. unfold in_list. induction l as [|x l IH]; simpl; [reflexivity|].
  intros H. apply andb_prop in H as [Hx Hl].
  now rewrite (registered_eqb name x), IH.
Qed.

Lemma extract_default (name : pystr) (detail : dict) :
  ~ In name registered_event_names ->
  extract_resource_details (VDict detail) (VStr name) = Ret (py "", VStr (py "")).
Proof.
  intros Hn. unfold extract_resource_details. cbn [get obind eq_str].
  rewrite !(in_list_unregistered name) by (assumption || reflexivity).
  rewrite !(registered_eqb name) by (assumption || reflexivity).
  reflexivity.
Qed.

(** C5: an event name without a rule gives the empty pair, whatever the
    detail mapping holds. *)
Theorem extract_unregistered (name : pystr) (detail : dict) :
  ~ In name registered_event_names ->
  extract_resource_details (VDict detail) (VStr name) = Ret (py "", VStr (py "")).
Proof. exact (extract_default name detail). Qed.

Lemma extract_unregistered_witness :
  ~ In (py "UnknownThing") registered_event_names
  /\ extract_resource_details
       (VDict [(py "responseElements", VNone); (py "eventName", VStr (py "UnknownThing"))])
       (VStr (py "UnknownThing"))
     = Ret (py "", VStr (py "")).
Proof.
  assert (H : ~ In (py "UnknownThing") registered_event_names).
  { intros H. vm_compute in H. repeat (destruct H as [H|H]; [discriminate H|]). exact H. }
  split; [exact H|]. exact (extract_unregistered _ _ H).
Defined.

(** *** The function and the table *)

Lemma in_list_single (v : Value) (x : pystr) : in_list v [x] = eq_str v x.
Proof. unfold in_list. simpl. apply orb_false_r. Qed.

(** The if-chain computes what the table says, on every detail and every
    event name, of whatever type. *)
Lemma extract_follows_table (detail event_name : Value) :
  extract_resource_details detail event_name = extract_by_table detail event_name.
Proof.
  unfold extract_resource_details, extract_by_table, rule_of, extraction_table.
  cbn [find_rule rule_names]. rewrite !in_list_single.
  repeat
    match goal with
    | |- context [if in_list event_name ?l then _ else _] =>
      destruct (in_list event_name l); [reflexivity|]
    | |- context [if eq_str event_name ?x then _ else _] =>
      destruct (eq_str event_name x); [reflexivity|]
    end.
  reflexivity.
Qed.

Lemma find_rule_in (event_name : Value) (table : list Rule) (r : Rule) :
  find_rule event_name table = Some r -> In r table.
Proof.
  induction table as [|r' table IH]; simpl; [discriminate|].
  destruct (in_list event_name (rule_names r')).
  - intros H. injection H as ->. now left.
  - intros H. right. now apply IH.
Qed.

Lemma find_rule_names (event_name : Value) (table : list Rule) (r : Rule) :
  find_rule event_name table = Some r -> in_list event_name (rule_names r) = true.
Proof.
  induction table as [|r' table IH]; simpl; [discriminate|].
  destruct (in_list event_name (rule_names r')) eqn:E.
  - intros H. now injection H as <-.
  - exact IH.
Qed.

(** Every rule has a label, and a rule that takes a first element reaches
    the list through at least one key. *)
Lemma table_rules_wf (r : Rule) :
  In r extraction_table ->
  rule_label r <> [] /\ (rule_first r = true -> rule_path r <> []).
Proof.
  intros H.
  assert (Hall : forallb (fun r => match rule_label r with [] => false | _ => true end
                                   && (negb (rule_first r)
                                       || match rule_path r with [] => false | _ => true end))
                   extraction_table = true) by reflexivity.
  rewrite forallb_forall in Hall. specialize (Hall r H).
  apply andb_prop in Hall as [Hlabel Hpath]. split.
  - destruct (rule_label r); [discriminate|discriminate].
  - intros Hfirst. rewrite Hfirst in Hpath. destruct (rule_path r); discriminate.
Qed.

(** The names of the table are the registered event names. *)
Lemma table_names :
  flat_map rule_names extraction_table = registered_event_names.
Proof. reflexivity. Qed.

Lemma walk_last {A : Type} (key : pystr) (first : bool) (v : Value)
    (k : Value -> Outcome A) :
  walk [key] first v k = obind (get v key (if first then VList [] else VDict [])) k.
Proof. reflexivity. Qed.

Lemma walk_step {A : Type} (key key' : pystr) (rest : list pystr) (first : bool)
    (v : Value) (k : Value -> Outcome A) :
  walk (key :: key' :: rest) first v k
  = obind (get v key (VDict [])) (fun x => walk (key' :: rest) first x k).
Proof. reflexivity. Qed.

Lemma path_ok_empty (path : list pystr) (first : bool) :
  path_ok path first (VDict []) = true.
Proof. destruct path as [|key [|key' rest]]; reflexivity. Qed.

Lemma path_ok_dict (path : list pystr) (first : bool) (v : Value) :
  path_ok path first v = true -> exists d, v = VDict d.
Proof.
  destruct path; destruct v; simpl; try discriminate; intros _; now eexists.
Qed.

(** *** Missing fields *)

Lemma traverse_app (p q : list pystr) (v : Value) :
  traverse (p ++ q) v
  = match traverse p v with
    | Present x => traverse q x
    | Absent => Absent
    | Mismatch => Mismatch
    end.
Proof.
  revert v. induction p as [|key p IH]; intros v; [reflexivity|].
  cbn [app traverse]. destruct v; try reflexivity.
  destruct (dict_lookup key d); [apply IH|reflexivity].
Qed.

Lemma walk_empty {A : Type} (path : list pystr) (first : bool)
    (k : Value -> Outcome A) :
  path <> [] ->
  walk path first (VDict []) k = k (if first then VList [] else VDict []).
Proof.
  induction path as [|key rest IH]; [congruence|]. intros _.
  destruct rest as [|key' rest]; [reflexivity|].
  rewrite walk_step. cbn [get dict_lookup lookup_or obind]. apply IH. discriminate.
Qed.

(** The walk ends on the value the path leads to, and on the default when a
    key of the path is missing. *)
Lemma walk_traverse {A : Type} (path : list pystr) (first : bool) (v : Value)
    (k : Value -> Outcome A) :
  (forall x, traverse path v = Present x -> walk path first v k = k x)
  /\ (traverse path v = Absent ->
      walk path first v k = k (if first then VList [] else VDict [])).
Proof.
  revert v. induction path as [|key rest IH]; intros v.
  - split; [intros x H; now injection H as ->|discriminate].
  - cbn [traverse]. destruct v as [| | | | | |d];
      try (split; [intros x H|intros H]; discriminate H).
    destruct rest as [|key' rest].
    + rewrite walk_last, get_dict. unfold lookup_or. cbn [obind].
      destruct (dict_lookup key d) as [x|]; cbn [traverse].
      * split; [intros y H; now injection H as ->|discriminate].
      * split; [discriminate|reflexivity].
    + rewrite walk_step, get_dict. unfold lookup_or. cbn [obind].
      destruct (dict_lookup key d) as [x|].
      * apply IH.
      * split; [discriminate|]. intros _. apply walk_empty. discriminate.
Qed.

(** A rule that reads the identifier from a mapping keeps its label when the
    identifier, or a mapping on the way to it, is missing. *)
Lemma missing_identifier (event_name : Value) (r : Rule) (detail : dict) :
  rule_of event_name = Some r ->
  rule_first r = false ->
  traverse (source_key r :: rule_path r ++ [rule_leaf r]) (VDict detail) = Absent ->
  extract_resource_details (VDict detail) event_name
  = Ret (rule_label r, VStr (py "")).
Proof.
  intros Hrule Hfirst Habsent.
  rewrite extract_follows_table. unfold extract_by_table. rewrite Hrule.
  unfold run_rule. rewrite !get_dict. cbn [obind]. rewrite Hfirst.
  assert (Hsrc : lookup_or (source_key r) detail (VDict [])
                 = match rule_source r with
                   | FromResponse => lookup_or (py "responseElements") detail (VDict [])
                   | FromRequest => lookup_or (py "requestParameters") detail (VDict [])
                   end)
    by (unfold source_key; now destruct (rule_source r)).
  rewrite <- Hsrc. clear Hsrc.
  cbn [traverse] in Habsent. unfold lookup_or at 1.
  destruct (dict_lookup (source_key r) detail) as [src|].
  - rewrite traverse_app in Habsent.
    destruct (walk_traverse (rule_path r) false src
                (fun container =>
                   obind (get container (rule_leaf r) (VStr (py "")))
                     (fun resourceValue => Ret (rule_label r, resourceValue))))
      as [Hpresent Hmissing].
    destruct (traverse (rule_path r) src) as [container| |].
    + rewrite (Hpresent container eq_refl). cbn [traverse] in Habsent.
      destruct container as [| | | | | |d]; try discriminate Habsent.
      rewrite get_dict. unfold lookup_or.
      destruct (dict_lookup (rule_leaf r) d); [discriminate Habsent|reflexivity].
    + now rewrite (Hmissing eq_refl).
    + discriminate Habsent.
  - destruct (rule_path r) as [|key rest] eqn:Hpath; [reflexivity|].
    rewrite walk_empty by discriminate. reflexivity.
Qed.

Lemma rule_source_value (r : Rule) (detail : dict) :
  match rule_source r with
  | FromResponse => lookup_or (py "responseElements") detail (VDict [])
  | FromRequest => lookup_or (py "requestParameters") detail (VDict [])
  end
  = lookup_or (source_key r) detail (VDict []).
Proof. unfold source_key. now destruct (rule_source r). Qed.

(** The extractor runs the rule of the event name: the chain of keys from
    the source field, then what the rule does with the value reached. *)
Lemma extract_runs_rule (event_name : Value) (r : Rule) (detail : dict) :
  rule_of event_name = Some r ->
  extract_resource_details (VDict detail) event_name
  = walk (rule_path r) (rule_first r) (lookup_or (source_key r) detail (VDict []))
      (rule_result r).
Proof.
  intros Hrule. rewrite extract_follows_table. unfold extract_by_table.
  rewrite Hrule. unfold run_rule. rewrite !get_dict. cbn [obind].
  now rewrite rule_source_value.
Qed.

Lemma rule_wf (event_name : Value) (r : Rule) :
  rule_of event_name = Some r -> rule_first r = true -> rule_path r <> [].
Proof.
  intros Hrule. apply (table_rules_wf r). now apply (find_rule_in event_name).
Qed.

Lemma traverse_source (key : pystr) (path : list pystr) (detail : dict) :
  path <> [] ->
  traverse (key :: path) (VDict detail)
  = traverse path (lookup_or key detail (VDict [])).
Proof.
  intros Hpath. cbn [traverse]. unfold lookup_or.
  destruct (dict_lookup key detail); [reflexivity|].
  destruct path; [congruence|reflexivity].
Qed.

(** *** What a rule does with the value reached *)

Lemma rule_result_dict (r : Rule) (d : dict) :
  rule_first r = false ->
  rule_result r (VDict d)
  = Ret (rule_label r, lookup_or (rule_leaf r) d (VStr (py ""))).
Proof. intros H. unfold rule_result. now rewrite H. Qed.

Lemma rule_result_falsy (r : Rule) (c : Value) :
  rule_first r = true -> truthy c = false ->
  rule_result r c = Ret (py "", VStr (py "")).
Proof. intros H Hc. unfold rule_result. now rewrite H, Hc. Qed.

Lemma rule_result_first (r : Rule) (first : dict) (rest : list Value) :
  rule_first r = true ->
  rule_result r (VList (VDict first :: rest))
  = Ret (rule_label r, lookup_or (rule_leaf r) first (VStr (py ""))).
Proof. intros H. unfold rule_result. now rewrite H. Qed.

Lemma first_readable_inv (c : Value) :
  first_readable c = true ->
  truthy c = false \/ exists first rest, c = VList (VDict first :: rest).
Proof.
  unfold first_readable. intros H. apply orb_true_iff in H as [H|H].
  - left. now apply negb_true_iff.
  - right. destruct c as [| | | | |l|]; try discriminate H.
    destruct l as [|[| | | | | |first] rest]; try discriminate H. now eexists; eexists.
Qed.

(** A value that is not readable in the sense above makes the rule raise. *)
Lemma rule_result_raises (r : Rule) (c : Value) :
  (if rule_first r then first_readable c else is_dict c) = false ->
  exists e, rule_result r c = Raise e.
Proof.
  unfold rule_result. destruct (rule_first r); intros H.
  - unfold first_readable in H. apply orb_false_iff in H as [Htruthy Hshape].
    apply negb_false_iff in Htruthy. rewrite Htruthy.
    destruct c as [| | | |s|l|d]; try (eexists; reflexivity).
    + destruct s as [|ch s]; [discriminate Htruthy|]. eexists. reflexivity.
    + destruct l as [|x l]; [discriminate Htruthy|].
      destruct x; try discriminate Hshape; eexists; reflexivity.
  - destruct c; try discriminate H; eexists; reflexivity.
Qed.

(** *** Well-shaped details *)

(** A chain of keys through well-shaped fields ends on a value the rule can
    read: the value the chain leads to, or the default when a key of the
    chain is missing. *)
Lemma walk_ok {A : Type} (path : list pystr) (first : bool) (v : Value)
    (k : Value -> Outcome A) :
  path_ok path first v = true ->
  (first = true -> path <> []) ->
  exists c,
    walk path first v k = k c
    /\ (if first then first_readable c else is_dict c) = true
    /\ (traverse path v = Present c
        \/ (traverse path v = Absent /\ c = if first then VList [] else VDict [])).
Proof.
  revert v. induction path as [|key rest IH]; intros v Hok Hwf.
  - destruct first; [now destruct Hwf|].
    apply path_ok_dict in Hok as [d ->]. exists (VDict d).
    split; [reflexivity|]. split; [reflexivity|]. now left.
  - destruct (path_ok_dict _ _ _ Hok) as [d ->].
    destruct rest as [|key' rest].
    + cbn [path_ok] in Hok. rewrite walk_last, get_dict. cbn [obind traverse].
      unfold field_ok in Hok. unfold lookup_or.
      destruct (dict_lookup key d) as [x|].
      * exists x. split; [reflexivity|]. split; [now destruct first|]. now left.
      * exists (if first then VList [] else VDict []).
        split; [reflexivity|]. split; [now destruct first|]. now right.
    + change (field_ok (path_ok (key' :: rest) first) d key = true) in Hok.
      rewrite walk_step, get_dict. cbn [obind].
      change (traverse (key :: key' :: rest) (VDict d))
        with (match dict_lookup key d with
              | Some x => traverse (key' :: rest) x
              | None => Absent
              end).
      unfold field_ok in Hok. unfold lookup_or.
      destruct (dict_lookup key d) as [x|].
      * apply IH; [exact Hok|discriminate].
      * exists (if first then VList [] else VDict []).
        split; [apply walk_empty; discriminate|].
        split; [now destruct first|]. now right.
Qed.

(** On a well-shaped detail the extractor returns, and the value of the pair
    is the identifier the rule leads to, or the empty string when there is
    none. *)
Lemma extract_value (event_name : Value) (detail : dict) :
  well_shaped event_name detail = true ->
  exists label,
    extract_resource_details (VDict detail) event_name
    = Ret (label, match identifier event_name detail with
                  | Some v => v
                  | None => VStr (py "")
                  end).
Proof.
  unfold well_shaped, identifier. intros Hshape.
  destruct (rule_of event_name) as [r|] eqn:Hrule.
  - rewrite (extract_runs_rule _ _ _ Hrule).
    assert (Hsrc : path_ok (rule_path r) (rule_first r)
                     (lookup_or (source_key r) detail (VDict [])) = true)
      by (apply field_ok_lookup_or; [exact Hshape|apply path_ok_empty]).
    destruct (walk_ok (rule_path r) (rule_first r) _ (rule_result r) Hsrc
                (rule_wf _ _ Hrule)) as [c [Hwalk [Hc Hpath]]].
    rewrite Hwalk. destruct (rule_first r) eqn:Hfirst.
    + rewrite (traverse_source _ _ _ (rule_wf _ _ Hrule Hfirst)).
      destruct Hpath as [Hpath|[Hpath ->]]; rewrite Hpath.
      * apply first_readable_inv in Hc as [Hc|[first [rest ->]]].
        -- exists (py ""). rewrite (rule_result_falsy r c Hfirst Hc).
           destruct c as [| | | | |l|]; try reflexivity.
           destruct l as [|x l]; [reflexivity|discriminate Hc].
        -- exists (rule_label r). rewrite (rule_result_first r first rest Hfirst).
           unfold lookup_or. now destruct (dict_lookup (rule_leaf r) first).
      * exists (py ""). now rewrite (rule_result_falsy r (VList []) Hfirst).
    + apply is_dict_inv in Hc as [d ->]. exists (rule_label r).
      rewrite (rule_result_dict r d Hfirst).
      rewrite traverse_source by (destruct (rule_path r); discriminate).
      rewrite traverse_app.
      destruct Hpath as [Hpath|[Hpath Hd]]; rewrite Hpath.
      * cbn [traverse]. unfold lookup_or.
        now destruct (dict_lookup (rule_leaf r) d).
      * injection Hd as ->. reflexivity.
  - exists (py ""). rewrite extract_follows_table. unfold extract_by_table.
    now rewrite Hrule.
Qed.

(** The condition is the weakest one: on a detail that is not well shaped
    the extractor raises. *)
Lemma walk_raises (r : Rule) (path : list pystr) (v : Value) :
  path_ok path (rule_first r) v = false ->
  (rule_first r = true -> path <> []) ->
  exists e, walk path (rule_first r) v (rule_result r) = Raise e.
Proof.
  revert v. induction path as [|key rest IH]; intros v Hok Hwf.
  - cbn [walk]. apply rule_result_raises.
    destruct (rule_first r); [now destruct Hwf|].
    destruct v; try reflexivity. discriminate Hok.
  - destruct v as [| | | | | |d];
      try (destruct rest; eexists; reflexivity).
    destruct rest as [|key' rest].
    + cbn [path_ok] in Hok. rewrite walk_last, get_dict. cbn [obind].
      apply rule_result_raises. unfold field_ok in Hok. unfold lookup_or.
      destruct (dict_lookup key d) as [x|]; [|discriminate Hok].
      now destruct (rule_first r).
    + change (field_ok (path_ok (key' :: rest) (rule_first r)) d key = false) in Hok.
      rewrite walk_step, get_dict. cbn [obind].
      unfold field_ok in Hok. unfold lookup_or.
      destruct (dict_lookup key d) as [x|]; [|discriminate Hok].
      apply IH; [exact Hok|discriminate].
Qed.

Lemma extract_raises_unless_well_shaped (event_name : Value) (detail : dict) :
  well_shaped event_name detail = false ->
  exists e, extract_resource_details (VDict detail) event_name = Raise e.
Proof.
  unfold well_shaped. intros Hshape.
  destruct (rule_of event_name) as [r|] eqn:Hrule; [|discriminate Hshape].
  rewrite (extract_runs_rule _ _ _ Hrule).
  unfold field_ok in Hshape. unfold lookup_or.
  destruct (dict_lookup (source_key r) detail) as [src|]; [|discriminate Hshape].
  apply walk_raises; [exact Hshape|exact (rule_wf _ _ Hrule)].
Qed.

(** A rule that takes the first element of a list gives the empty value when
    that element is a mapping without the identifier. *)
Lemma missing_in_first (event_name : Value) (r : Rule) (detail first : dict)
    (rest : list Value) :
  rule_of event_name = Some r ->
  rule_first r = true ->
  traverse (source_key r :: rule_path r) (VDict detail)
  = Present (VList (VDict first :: rest)) ->
  dict_lookup (rule_leaf r) first = None ->
  extract_resource_details (VDict detail) event_name
  = Ret (rule_label r, VStr (py "")).
Proof.
  intros Hrule Hfirst Hlist Hleaf. rewrite (extract_runs_rule _ _ _ Hrule).
  rewrite (traverse_source _ _ _ (rule_wf _ _ Hrule Hfirst)) in Hlist.
  rewrite (proj1 (walk_traverse _ _ _ _) _ Hlist).
  rewrite (rule_result_first r first rest Hfirst). unfold lookup_or.
  now rewrite Hleaf.
Qed.

(** A rule that takes the first element of a list gives the empty pair when
    the list is missing, or when what stands in its place is falsy: an empty
    list, [null], zero, [false], an empty string or an empty mapping. *)
Lemma falsy_list (event_name : Value) (r : Rule) (detail : dict) :
  rule_of event_name = Some r ->
  rule_first r = true ->
  traverse (source_key r :: rule_path r) (VDict detail) = Absent
  \/ (exists c, traverse (source_key r :: rule_path r) (VDict detail) = Present c
                /\ truthy c = false) ->
  extract_resource_details (VDict detail) event_name = Ret (py "", VStr (py "")).
Proof.
  intros Hrule Hfirst Hlist. rewrite (extract_runs_rule _ _ _ Hrule).
  rewrite (traverse_source _ _ _ (rule_wf _ _ Hrule Hfirst)) in Hlist.
  destruct Hlist as [H|[c [H Hc]]].
  - rewrite (proj2 (walk_traverse _ _ _ _) H), Hfirst.
    now apply rule_result_falsy.
  - rewrite (proj1 (walk_traverse _ _ _ _) _ H). now apply rule_result_falsy.
Qed.

(** C3, as the code has it: on a detail mapping in which every value the
    rule of the event name reads a key from is a mapping and the value whose
    first element it takes is falsy or a list that starts with a mapping,
    in particular when intermediate keys are missing or a list is empty,
    [extract_resource_details] returns a pair and does not raise; when the
    rule leads to no identifier, the value of the pair is the empty string.
    That covers a key of the chain that is missing, a first element
    that is a mapping without the identifier, and a list that is missing,
    empty or otherwise falsy, for which the whole pair is empty. *)
Theorem extract_returns_on_well_shaped (name : pystr) (detail : dict) :
  well_shaped (VStr name) detail = true ->
  (exists kv, extract_resource_details (VDict detail) (VStr name) = Ret kv)
  /\ (identifier (VStr name) detail = None ->
      exists label,
        extract_resource_details (VDict detail) (VStr name)
        = Ret (label, VStr (py "")))
  /\ (forall r,
        rule_of (VStr name) = Some r ->
        rule_first r = false ->
        traverse (source_key r :: rule_path r ++ [rule_leaf r]) (VDict detail)
        = Absent ->
        exists label,
          extract_resource_details (VDict detail) (VStr name)
          = Ret (label, VStr (py "")))
  /\ (forall r first rest,
        rule_of (VStr name) = Some r ->
        rule_first r = true ->
        traverse (source_key r :: rule_path r) (VDict detail)
        = Present (VList (VDict first :: rest)) ->
        dict_lookup (rule_leaf r) first = None ->
        exists label,
          extract_resource_details (VDict detail) (VStr name)
          = Ret (label, VStr (py "")))
  /\ (forall r,
        rule_of (VStr name) = Some r ->
        rule_first r = true ->
        traverse (source_key r :: rule_path r) (VDict detail) = Absent
        \/ (exists c,
              traverse (source_key r :: rule_path r) (VDict detail) = Present c
              /\ truthy c = false) ->
        extract_resource_details (VDict detail) (VStr name)
        = Ret (py "", VStr (py ""))).
Proof.
  intros Hshape. destruct (extract_value _ _ Hshape) as [label Hrun].
  split; [|split; [|split; [|split]]].
  - eexists. exact Hrun.
  - intros Hnone. exists label. now rewrite Hnone in Hrun.
  - intros r Hrule Hfirst Habsent. exists (rule_label r).
    now apply missing_identifier.
  - intros r first rest Hrule Hfirst Hlist Hleaf. exists (rule_label r).
    now apply (missing_in_first (VStr name) r detail first rest).
  - intros r Hrule Hfirst Hlist. now apply (falsy_list (VStr name) r).
Qed.

Lemma extract_returns_on_well_shaped_witness :
  well_shaped (VStr (py "CreateLoadBalancer"))
    [(py "requestParameters", VNone);
     (py "responseElements", VDict [(py "loadBalancers", VList [VDict []])])] = true
  /\ (exists label,
        extract_resource_details
          (VDict [(py "requestParameters", VNone);
                  (py "responseElements",
                   VDict [(py "loadBalancers", VList [VDict []])])])
          (VStr (py "CreateLoadBalancer")) = Ret (label, VStr (py ""))).
Proof.
  split; [reflexivity|].
  exact (proj1 (proj2 (extract_returns_on_well_shaped (py "CreateLoadBalancer")
                         [(py "requestParameters", VNone);
                          (py "responseElements",
                           VDict [(py "loadBalancers", VList [VDict []])])]
                         eq_refl))
           eq_refl).
Defined.

(** C3 as stated fails: a list whose first element is not a mapping makes
    the extractor raise. *)
Lemma extract_raises_on_string_item :
  extract_resource_details
    (VDict [(py "responseElements",
             VDict [(py "instancesSet",
                     VDict [(py "items", VList [VStr (py "i-0abc")])])])])
    (VStr (py "RunInstances"))
  = Raise (mkExc AttributeError (py "'str' object has no attribute 'get'")).
Proof. vm_compute. reflexivity. Qed.

(** So does [responseElements] present with the value [null], which is what
    an audit record carries when the call returned nothing. *)
Lemma extract_raises_on_null_response :
  extract_resource_details
    (VDict [(py "responseElements", VNone)]) (VStr (py "CreateUser"))
  = Raise (mkExc AttributeError (py "'NoneType' object has no attribute 'get'")).
Proof. vm_compute. reflexivity. Qed.

(** C4: with the identifier missing, the rules that read it from a mapping
    still return their label, not the empty pair: so it is for the database
    instance events on a response without [dBInstanceIdentifier], and so it
    is, on a detail that holds nothing at all, for every registered event
    name but the four that take the first element of a list. *)
Theorem extract_missing_identifier_keeps_label :
  extract_resource_details
    (VDict [(py "responseElements", VDict [])]) (VStr (py "CreateDBInstance"))
  = Ret (py "DB_Instance_ID", VStr (py ""))
  /\ extract_resource_details
       (VDict [(py "responseElements", VDict [])]) (VStr (py "DeleteDBInstance"))
     = Ret (py "DB_Instance_ID", VStr (py ""))
  /\ extract_resource_details
       (VDict [(py "responseElements", VDict [(py "user", VDict [])])])
       (VStr (py "CreateUser"))
     = Ret (py "User_ID", VStr (py ""))
  /\ map (fun name => extract_resource_details (VDict []) (VStr name))
       registered_event_names
     = map (fun label => Ret (label, VStr (py "")))
         [py ""; py ""; py "DB_Instance_ID"; py "DB_Instance_ID";
     py ""; py ""; py "User_ID"; py "User_ID";
     py "Group"; py "Group"; py "Role"; py "Role";
     py "Policy"; py "Policy"; py "Cluster"; py "Cluster";
     py "RestApi"; py "RestApi"; py "Pipeline"; py "Pipeline";
     py "Project"; py "Project"; py "Project"; py "Application";
     py "Application"; py "HostedZone"; py "HostedZone"; py "Secret_ID";
     py "Secret_ID"; py "Repository Name"; py "Repository Name"; py "AutoScalingGroup";
     py "AutoScalingGroup"].
Proof. repeat split; vm_compute; reflexivity. Qed.

(** C6: for instance launch and termination, a list of instances that
    starts with a mapping gives the label "Instance_ID" and the [instanceId]
    of the first instance (the empty string if it has none); an empty or
    absent list gives the empty pair. *)
Theorem extract_instances (name : pystr) (detail : dict) :
  name = py "RunInstances" \/ name = py "TerminateInstances" ->
  let items :=
    traverse [py "responseElements"; py "instancesSet"; py "items"] (VDict detail) in
  (forall first rest,
      items = Present (VList (VDict first :: rest)) ->
      extract_resource_details (VDict detail) (VStr name)
      = Ret (py "Instance_ID", lookup_or (py "instanceId") first (VStr (py ""))))
  /\ (items = Present (VList []) \/ items = Absent ->
      extract_resource_details (VDict detail) (VStr name)
      = Ret (py "", VStr (py ""))).
Proof.
  intros Hname items.
  assert (Hin : in_list (VStr name) [py "TerminateInstances"; py "RunInstances"] = true)
    by (destruct Hname as [-> | ->]; reflexivity).
  subst items. unfold extract_resource_details.
  rewrite !get_dict. cbn [obind]. rewrite Hin. clear Hin Hname.
  unfold lookup_or. cbn [traverse].
  destruct (dict_lookup (py "responseElements") detail) as [re|].
  - destruct re as [| | | | | |re];
      try (split; [intros ? ? H|intros [H|H]]; discriminate H).
    rewrite get_dict. cbn [obind]. unfold lookup_or.
    destruct (dict_lookup (py "instancesSet") re) as [iset|].
    + destruct iset as [| | | | | |iset];
        try (split; [intros ? ? H|intros [H|H]]; discriminate H).
      rewrite get_dict. cbn [obind]. unfold lookup_or.
      destruct (dict_lookup (py "items") iset) as [elems|].
      * split.
        -- intros first rest H. injection H as ->. reflexivity.
        -- intros [H|H]; [injection H as ->; reflexivity|discriminate H].
      * split; [intros ? ? H; discriminate H|reflexivity].
    + split; [intros ? ? H; discriminate H|reflexivity].
  - split; [intros ? ? H; discriminate H|reflexivity].
Qed.

Lemma extract_instances_witness :
  extract_resource_details
    (VDict [(py "responseElements",
             VDict [(py "instancesSet",
                     VDict [(py "items",
                             VList [VDict [(py "instanceId", VStr (py "i-0abc"))];
                                    VDict [(py "instanceId", VStr (py "i-0def"))]])])])])
    (VStr (py "RunInstances"))
  = Ret (py "Instance_ID", VStr (py "i-0abc"))
  /\ extract_resource_details
       (VDict [(py "responseElements", VDict [(py "instancesSet", VDict [])])])
       (VStr (py "TerminateInstances"))
     = Ret (py "", VStr (py "")).
Proof.
  split.
  - exact (proj1 (extract_instances (py "RunInstances")
                    [(py "responseElements",
                      VDict [(py "instancesSet",
                              VDict [(py "items",
                                      VList [VDict [(py "instanceId", VStr (py "i-0abc"))];
                                             VDict [(py "instanceId", VStr (py "i-0def"))]])])])]
                    (or_introl eq_refl))
             [(py "instanceId", VStr (py "i-0abc"))]
             [VDict [(py "instanceId", VStr (py "i-0def"))]] eq_refl).
  - exact (proj2 (extract_instances (py "TerminateInstances")
                    [(py "responseElements", VDict [(py "instancesSet", VDict [])])]
                    (or_intror eq_refl))
             (or_intror eq_refl)).
Defined.

(** ** The actor *)

Lemma last_occurrence (c : codepoint) (s : pystr) :
  In c s -> exists a b, s = a ++ c :: b /\ ~ In c b.
Proof.
  induction s as [|x s IH]; [intros []|]. intros H.
  destruct (str_contains [c] s) eqn:E.
  - apply str_contains_char in E. destruct (IH E) as [a [b [-> Hb]]].
    now exists (x :: a), b.
  - assert (Hs : ~ In c s) by (rewrite <- str_contains_char, E; discriminate).
    destruct H as [-> | H]; [|contradiction].
    now exists [], s.
Qed.

Lemma app_colon_inv (c : codepoint) (a a' b b' : pystr) :
  a ++ c :: b = a' ++ c :: b' -> ~ In c b -> ~ In c b' -> b = b'.
Proof.
  revert a'. induction a as [|x a IH]; intros [|x' a'] E Hb Hb'; simpl in E.
  - now injection E.
  - injection E as _ E. exfalso. apply Hb. rewrite E. apply in_elt.
  - injection E as _ E. exfalso. apply Hb'. rewrite <- E. apply in_elt.
  - injection E as _ E. now apply (IH a').
Qed.

(** What lines 109 and 110 make of a string. *)
Lemma strip_namespace (s : pystr) :
  exists r,
    (has_colon <- contains (py ":") (VStr s) ;;
     if has_colon then
       parts <- split (VStr s) (py ":") ;;
       subscript parts (-1)
     else Ret (VStr s))%outcome = Ret (VStr r)
    /\ after_last_colon s r.
Proof.
  change (py ":") with [58]. cbn [contains obind split].
  destruct (str_contains [58] s) eqn:E.
  - apply str_contains_char in E.
    destruct (last_occurrence _ _ E) as [a [b [-> Hb]]].
    exists b. split; [|right; now exists a].
    unfold str_split. rewrite subscript_last, last_map_VStr.
    + now rewrite split_from_last.
    + apply split_from_nonempty.
    + intros H. apply map_eq_nil in H. now apply split_from_nonempty in H.
  - exists s. split; [reflexivity|]. left. split; [|reflexivity].
    intros Hin. apply str_contains_char in Hin. congruence.
Qed.

(** C7: the actor is [userName] when it is there, [principalId] when
    [userName] is absent, and of the chosen string only what follows its
    last colon is kept. *)
Theorem resolve_actor_spec (user_identity : dict) :
  (forall s,
      dict_lookup (py "userName") user_identity = Some (VStr s) -> s <> [] ->
      exists r, resolve_actor (VDict user_identity) = Ret (VStr r)
                /\ after_last_colon s r)
  /\ (forall p,
        dict_lookup (py "userName") user_identity = None ->
        dict_lookup (py "principalId") user_identity = Some (VStr p) ->
        exists r, resolve_actor (VDict user_identity) = Ret (VStr r)
                  /\ after_last_colon p r)
  /\ resolve_actor
       (VDict [(py "userName", VStr (py "arn:aws:iam::123:role/xyz.com-svc"))])
     = Ret (VStr (py "role/xyz.com-svc")).
Proof.
  split; [|split].
  - intros s Hs Hne. unfold resolve_actor. rewrite get_dict.
    unfold lookup_or. rewrite Hs. cbn [obind].
    destruct s as [|c s]; [congruence|]. cbn [truthy obind].
    apply strip_namespace.
  - intros p Hu Hp. unfold resolve_actor. rewrite !get_dict.
    unfold lookup_or. rewrite Hu, Hp. cbn [obind truthy].
    apply strip_namespace.
  - reflexivity.
Qed.

Lemma resolve_actor_spec_witness :
  (exists r,
      resolve_actor (VDict [(py "userName", VStr (py "sts:alice@xyz.com"))])
      = Ret (VStr r)
      /\ after_last_colon (py "sts:alice@xyz.com") r)
  /\ (exists r,
        resolve_actor (VDict [(py "principalId", VStr (py "AROAEXAMPLE:bob@xyz.com"))])
        = Ret (VStr r)
        /\ after_last_colon (py "AROAEXAMPLE:bob@xyz.com") r).
Proof.
  split.
  - refine (proj1 (resolve_actor_spec
                     [(py "userName", VStr (py "sts:alice@xyz.com"))])
              (py "sts:alice@xyz.com") eq_refl _).
    vm_compute. discriminate.
  - exact (proj1 (proj2 (resolve_actor_spec
                           [(py "principalId", VStr (py "AROAEXAMPLE:bob@xyz.com"))]))
             (py "AROAEXAMPLE:bob@xyz.com") eq_refl eq_refl).
Defined.

(** The relation [after_last_colon] determines the actor. *)
Lemma after_last_colon_unique (s r r' : pystr) :
  after_last_colon s r -> after_last_colon s r' -> r = r'.
Proof.
  intros [[Hn ->] | [a [-> Hr]]] [[Hn' ->] | [a' [E Hr']]].
  - reflexivity.
  - exfalso. apply Hn. rewrite E. apply in_elt.
  - exfalso. apply Hn'. apply in_elt.
  - now apply (app_colon_inv 58 a a').
Qed.

(** ** Statements *)

Lemma mbind_lift_ret {A B : Type} (a : A) (k : A -> M B) :
  mbind (lift (Ret a)) k = k a.
Proof. unfold mbind, lift. now destruct (k a). Qed.

Lemma mbind_lift_raise {A B : Type} (e : Exc) (k : A -> M B) :
  mbind (lift (Raise e)) k = ([], Raise e).
Proof. reflexivity. Qed.

Lemma mbind_logger {B : Type} (m : LogMethod) (fmt : pystr) (args : list Value)
    (k : unit -> M B) :
  mbind (logger m fmt args) k = (Log m fmt args :: fst (k tt), snd (k tt)).
Proof. unfold mbind, logger. now destruct (k tt). Qed.

Lemma call_trace {A : Type} (f : FunName) (body : M A) :
  call f body = (Call f :: fst body, snd body).
Proof. unfold call, mbind. now destruct body. Qed.

Lemma mbind_ret_inv {A B : Type} (m : M A) (k : A -> M B)
    (t : list Effect) (b : B) :
  mbind m k = (t, Ret b) ->
  exists t1 a t2, m = (t1, Ret a) /\ k a = (t2, Ret b) /\ t = t1 ++ t2.
Proof.
  destruct m as [t1 [a|e]]; simpl; [|discriminate].
  destruct (k a) as [t2 o] eqn:E. intros H. injection H as <- ->.
  now exists t1, a, t2.
Qed.

(** ** The handler *)

Lemma lambda_handler_returns (rt : Runtime) (event context : Value)
    (t : list Effect) (r : Result) :
  handler_body rt event = (t, Ret r) ->
  lambda_handler rt event context = (received rt event :: t, Ret r).
Proof.
  intros H. unfold lambda_handler. rewrite mbind_logger.
  unfold try_except. now rewrite H.
Qed.

Lemma lambda_handler_catches (rt : Runtime) (event context : Value)
    (t : list Effect) (e : Exc) :
  handler_body rt event = (t, Raise e) ->
  lambda_handler rt event context
  = (received rt event
       :: t ++ [Log exception (py "Error processing event: %s") [VStr (exc_msg e)]],
     Ret (failed e)).
Proof.
  intros H. unfold lambda_handler. rewrite mbind_logger.
  unfold try_except. now rewrite H.
Qed.

(** Once the actor is resolved the envelope has been read without a fault,
    and the handler is at the filter. *)
Lemma handler_body_resolved (rt : Runtime) (event user_name : Value) :
  resolved_actor event = Ret user_name ->
  handler_body rt event
  = filter_and_notify rt (detail_of event)
      (detail_field event (py "eventName") (py "UnknownEvent"))
      (detail_field event (py "awsRegion") (py "Unknown"))
      (detail_field event (py "eventTime") (py "Unknown"))
      (detail_field event (py "eventSource") (py "Unknown"))
      user_name.
Proof.
  unfold resolved_actor, handler_body, detail_field.
  destruct event as [| | | | | |ev]; try discriminate.
  rewrite get_dict. cbn [obind detail_of].
  destruct (lookup_or (py "detail") ev (VDict [])) as [| | | | | |d];
    try discriminate.
  rewrite get_dict. cbn [obind]. intros H.
  repeat (rewrite mbind_lift_ret; cbv beta; try rewrite get_dict).
  rewrite H, mbind_lift_ret. reflexivity.
Qed.

Lemma filter_skips (rt : Runtime)
    (detail event_name aws_region event_time event_source user_name : Value) :
  contains (py "@xyz.com") user_name = Ret false ->
  filter_and_notify rt detail event_name aws_region event_time event_source user_name
  = ([Log info (py "User %s does not match notification criteria. Skipping.")
        [user_name]],
     Ret skipped).
Proof.
  intros H. unfold filter_and_notify. rewrite H, mbind_lift_ret. reflexivity.
Qed.

(** An event whose actor fails the filter: two log records, nothing else. *)
Lemma handler_skips (rt : Runtime) (event context user_name : Value) :
  resolved_actor event = Ret user_name ->
  contains (py "@xyz.com") user_name = Ret false ->
  lambda_handler rt event context
  = ([received rt event;
      Log info (py "User %s does not match notification criteria. Skipping.")
        [user_name]],
     Ret skipped).
Proof.
  intros Hactor Hfilter. apply lambda_handler_returns.
  rewrite (handler_body_resolved _ _ _ Hactor). now apply filter_skips.
Qed.

(** C1: when the resolved actor is a string without the marker "@xyz.com",
    the handler returns the skipped result, and its trace holds no call of
    [extract_resource_details], no call of [send_slack_notification] and no
    outbound request. *)
Theorem filtered_actor_is_skipped (rt : Runtime) (event context : Value)
    (actor : pystr) :
  resolved_actor event = Ret (VStr actor) ->
  str_contains (py "@xyz.com") actor = false ->
  exists t,
    lambda_handler rt event context = (t, Ret skipped)
    /\ calls Fsend_slack_notification t = false
    /\ calls Fextract_resource_details t = false
    /\ outbound t = []
    /\ statusCode skipped = 200%Z
    /\ body skipped = py "User not in notify list.".
Proof.
  intros Hactor Hmarker. eexists. split.
  - apply (handler_skips rt event context (VStr actor) Hactor).
    cbn [contains]. now rewrite Hmarker.
  - repeat split.
Qed.

Lemma filtered_actor_is_skipped_witness :
  exists t,
    lambda_handler reachable
      (sample_event (py "RunInstances")
         (VDict [(py "userName", VStr (py "bob@other.com"))]) one_instance)
      VNone
    = (t, Ret skipped)
    /\ calls Fsend_slack_notification t = false
    /\ calls Fextract_resource_details t = false
    /\ outbound t = []
    /\ statusCode skipped = 200%Z
    /\ body skipped = py "User not in notify list.".
Proof.
  exact (filtered_actor_is_skipped reachable
           (sample_event (py "RunInstances")
              (VDict [(py "userName", VStr (py "bob@other.com"))]) one_instance)
           VNone (py "bob@other.com") eq_refl eq_refl).
Defined.

Lemma filter_and_notify_status (rt : Runtime)
    (detail event_name aws_region event_time event_source user_name : Value)
    (t : list Effect) (r : Result) :
  filter_and_notify rt detail event_name aws_region event_time event_source user_name
  = (t, Ret r) ->
  statusCode r = 200%Z.
Proof.
  unfold filter_and_notify. intros H.
  apply mbind_ret_inv in H as (? & notify & ? & _ & H & _).
  destruct notify; cbn [negb] in H.
  - apply mbind_ret_inv in H as (? & [k v] & ? & _ & H & _).
    cbv beta iota zeta in H.
    apply mbind_ret_inv in H as (? & ? & ? & _ & H & _).
    apply mbind_ret_inv in H as (? & ? & ? & _ & H & _).
    injection H as _ <-. reflexivity.
  - apply mbind_ret_inv in H as (? & ? & ? & _ & H & _).
    injection H as _ <-. reflexivity.
Qed.

Lemma handler_body_status (rt : Runtime) (event : Value)
    (t : list Effect) (r : Result) :
  handler_body rt event = (t, Ret r) -> statusCode r = 200%Z.
Proof.
  unfold handler_body. intros H.
  do 7 (apply mbind_ret_inv in H as (? & ? & ? & _ & H & _)).
  now apply filter_and_notify_status in H.
Qed.

(** C2: the handler returns a result on every event, in every runtime:
    what the body of its [try] block raises is turned into the 500 result
    that carries the message of the exception, and what the body returns is
    returned. *)
Theorem lambda_handler_never_raises (rt : Runtime) (event context : Value) :
  exists t r,
    lambda_handler rt event context = (t, Ret r)
    /\ (statusCode r = 200%Z \/ statusCode r = 500%Z)
    /\ (forall t' e,
           handler_body rt event = (t', Raise e) ->
           r = mkResult 500 (py "Error processing event: " ++ exc_msg e))
    /\ (forall t' r', handler_body rt event = (t', Ret r') -> r = r').
Proof.
  destruct (handler_body rt event) as [t [r|e]] eqn:H.
  - exists (received rt event :: t), r. split; [|split; [|split]].
    + now apply lambda_handler_returns.
    + left. now apply handler_body_status in H.
    + discriminate.
    + intros t' r' E. now injection E.
  - exists (received rt event
              :: t ++ [Log exception (py "Error processing event: %s")
                         [VStr (exc_msg e)]]),
      (failed e).
    split; [|split; [|split]].
    + now apply lambda_handler_catches.
    + now right.
    + intros t' e' E. injection E as _ <-. reflexivity.
    + discriminate.
Qed.

(** The three places a fault can come from, each turned into a 500 result:
    the envelope, the extractor, the delivery step. *)
Example malformed_envelope_is_caught :
  lambda_handler reachable (VList []) VNone
  = ([received reachable (VList []);
      Log exception (py "Error processing event: %s")
        [VStr (py "'list' object has no attribute 'get'")]],
     Ret (mkResult 500
            (py "Error processing event: 'list' object has no attribute 'get'"))).
Proof. reflexivity. Qed.

Example extraction_fault_is_caught :
  snd (lambda_handler reachable
         (sample_event (py "CreateUser")
            (VDict [(py "userName", VStr (py "alice@xyz.com"))]) VNone)
         VNone)
  = Ret (mkResult 500
           (py "Error processing event: 'NoneType' object has no attribute 'get'")).
Proof. reflexivity. Qed.

Example malformed_url_is_caught :
  snd (lambda_handler malformed_url
         (sample_event (py "RunInstances")
            (VDict [(py "userName", VStr (py "alice@xyz.com"))]) one_instance)
         VNone)
  = Ret (mkResult 500
           (py "Error processing event: unknown url type: 'hooks.slack.com/services/T0/B0/x'")).
Proof. vm_compute. reflexivity. Qed.

Example numeric_actor_is_caught :
  exists e,
    exc_type e = TypeError
    /\ snd (lambda_handler reachable
              (sample_event (py "RunInstances") (VDict [(py "userName", VInt 5)])
                 one_instance)
              VNone)
       = Ret (failed e).
Proof.
  destruct (contains (py ":") (VInt 5)) as [b|e] eqn:E; [discriminate E|].
  exists e. injection E as <-. split; reflexivity.
Qed.

(** ** The payload *)

Lemma hex_digit_ascii (n : N) : n < 16 -> hex_digit n < 128.
Proof.
  intros H. unfold hex_digit. destruct (n <? 10); lia.
Qed.

Lemma u_escape_ascii (n : N) : plain_ascii (u_escape n).
Proof.
  unfold u_escape, plain_ascii.
  repeat (apply Forall_cons; [first [lia | apply hex_digit_ascii; apply N.mod_lt; lia]|]).
  apply Forall_nil.
Qed.

Lemma escape_char_ascii (c : N) : plain_ascii (escape_char c).
Proof.
  unfold escape_char.
  repeat
    match goal with
    | |- plain_ascii (if ?b then _ else _) => destruct b eqn:?
    end;
    try (repeat (apply Forall_cons; [lia|]); apply Forall_nil).
  - apply Forall_cons; [|apply Forall_nil].
    match goal with
    | H : (_ && _) = true |- _ => apply andb_prop in H as [_ H]; apply N.leb_le in H
    end. lia.
  - apply u_escape_ascii.
  - apply Forall_app. split; apply u_escape_ascii.
Qed.

Lemma encode_basestring_ascii_ascii (s : pystr) : plain_ascii (encode_basestring_ascii s).
Proof.
  unfold encode_basestring_ascii, plain_ascii.
  apply Forall_app. split; [repeat constructor|].
  apply Forall_app. split; [|repeat constructor].
  induction s as [|c s IH]; simpl; [constructor|].
  apply Forall_app. split; [apply escape_char_ascii|exact IH].
Qed.

Lemma encode_from_ascii (s : pystr) (pos : N) :
  plain_ascii s -> encode_from pos s = Ret s.
Proof.
  intros H. revert pos. induction H as [|c s Hc Hs IH]; intros pos; simpl.
  - reflexivity.
  - assert (E : is_surrogate c = false).
    { unfold is_surrogate. apply andb_false_intro1. apply N.leb_gt. lia. }
    rewrite E, IH. simpl. unfold utf8_bytes.
    now replace (c <? 128) with true by (symmetry; apply N.ltb_lt; lia).
Qed.

(** The payload of a message is ASCII, so encoding it never fails and
    yields its code points. *)
Lemma payload_encodes (rt : Runtime) (text : pystr) :
  encode_utf8 (json_dumps rt (VDict [(py "text", VStr text)]))
  = Ret (json_dumps rt (VDict [(py "text", VStr text)])).
Proof.
  assert (Hlit : forall s : string, forallb (fun c => c <? 128) (py s) = true ->
                                    plain_ascii (py s)).
  { intros s H. apply Forall_forall. intros c Hc.
    rewrite forallb_forall in H. now apply N.ltb_lt, H. }
  apply encode_from_ascii. cbn [json_dumps map str_join].
  apply Forall_app; split; [now apply Hlit|].
  apply Forall_app; split; [|now apply Hlit].
  apply Forall_app; split; [apply encode_basestring_ascii_ascii|].
  apply Forall_app; split; [now apply Hlit|apply encode_basestring_ascii_ascii].
Qed.


(** ** Delivery *)

Lemma send_unconfigured (rt : Runtime) (message : Value) :
  SLACK_WEBHOOK_URL rt = [] ->
  send_slack_notification rt message
  = ([Log error (py "SLACK_WEBHOOK_URL not set in environment variables.") []],
     Ret tt).
Proof.
  intros H. unfold send_slack_notification. now rewrite H.
Qed.

Lemma send_configured (rt : Runtime) (message : Value) (data : list N) :
  SLACK_WEBHOOK_URL rt <> [] ->
  encode_utf8 (json_dumps rt message) = Ret data ->
  request_error rt (SLACK_WEBHOOK_URL rt) = None ->
  let req :=
    mkRequest (SLACK_WEBHOOK_URL rt) data [(py "Content-Type", py "application/json")] in
  send_slack_notification rt message
  = ([UrlOpen req; delivery_record (urlopen rt req)], Ret tt).
Proof.
  intros Hurl Hdata Hreq req. unfold send_slack_notification.
  destruct (SLACK_WEBHOOK_URL rt) as [|c url] eqn:E; [congruence|].
  cbn [truthy negb]. rewrite Hdata, mbind_lift_ret.
  unfold Request_new. rewrite Hreq, mbind_lift_ret.
  unfold try_except, urlopen_call, mbind. fold req.
  now destruct (urlopen rt req).
Qed.

(** Whatever happens to the request, the delivery step returns. *)
Lemma send_returns (rt : Runtime) (text : pystr) :
  SLACK_WEBHOOK_URL rt = [] \/ request_error rt (SLACK_WEBHOOK_URL rt) = None ->
  exists t,
    send_slack_notification rt (VDict [(py "text", VStr text)]) = (t, Ret tt)
    /\ (SLACK_WEBHOOK_URL rt = [] -> outbound t = [])
    /\ (SLACK_WEBHOOK_URL rt <> [] -> outbound t = [slack_request rt text]).
Proof.
  intros H.
  destruct (SLACK_WEBHOOK_URL rt) as [|c url] eqn:E.
  - eexists. split; [apply send_unconfigured; exact E|].
    split; [reflexivity|congruence].
  - destruct H as [H|H]; [discriminate H|].
    eexists. split; [|split].
    + rewrite <- E in H. apply send_configured;
        [congruence|apply payload_encodes|exact H].
    + discriminate.
    + intros _. cbn [outbound]. unfold slack_request.
      destruct (urlopen rt _); cbn [delivery_record outbound]; now rewrite E.
Qed.

Lemma filter_notifies (rt : Runtime)
    (detail event_name aws_region event_time event_source user_name : Value)
    (k : pystr) (v : Value) (ts : list Effect) :
  contains (py "@xyz.com") user_name = Ret true ->
  extract_resource_details detail event_name = Ret (k, v) ->
  let text :=
    render rt user_name event_source event_name k v aws_region event_time in
  send_slack_notification rt (VDict [(py "text", VStr text)]) = (ts, Ret tt) ->
  filter_and_notify rt detail event_name aws_region event_time event_source user_name
  = (Call Fextract_resource_details
       :: Log info (py "Sending Slack alert: %s") [VDict [(py "text", VStr text)]]
       :: Call Fsend_slack_notification :: ts,
     Ret (notified rt text)).
Proof.
  intros Hfilter Hextract text Hsend. unfold filter_and_notify.
  rewrite Hfilter, mbind_lift_ret. cbn [negb].
  rewrite Hextract. unfold call at 1, lift. cbn [mbind app].
  fold text. rewrite mbind_logger, call_trace, Hsend.
  cbn [mbind mret fst snd app]. now rewrite app_nil_r.
Qed.

(** An event whose actor passes the filter and whose extraction and
    delivery steps return. *)
Lemma handler_notifies (rt : Runtime) (event context user_name : Value)
    (k : pystr) (v : Value) (ts : list Effect) :
  resolved_actor event = Ret user_name ->
  contains (py "@xyz.com") user_name = Ret true ->
  extract_resource_details (detail_of event)
    (detail_field event (py "eventName") (py "UnknownEvent")) = Ret (k, v) ->
  let text := message_text rt event user_name k v in
  send_slack_notification rt (VDict [(py "text", VStr text)]) = (ts, Ret tt) ->
  lambda_handler rt event context
  = (received rt event
       :: Call Fextract_resource_details
       :: Log info (py "Sending Slack alert: %s") [VDict [(py "text", VStr text)]]
       :: Call Fsend_slack_notification :: ts,
     Ret (notified rt text)).
Proof.
  intros Hactor Hfilter Hextract text Hsend. apply lambda_handler_returns.
  rewrite (handler_body_resolved _ _ _ Hactor).
  subst text. unfold message_text in *.
  exact (filter_notifies rt _ _ _ _ _ _ k v ts Hfilter Hextract Hsend).
Qed.

(** *** The paths that end before delivery, or in it *)

Lemma handler_body_unresolved (rt : Runtime) (event : Value) (e : Exc) :
  resolved_actor event = Raise e -> handler_body rt event = ([], Raise e).
Proof.
  unfold resolved_actor, handler_body.
  destruct event as [| | | | | |ev];
    try (intros H; injection H as <-; reflexivity).
  rewrite get_dict, mbind_lift_ret. cbn [obind].
  destruct (lookup_or (py "detail") ev (VDict [])) as [| | | | | |d];
    try (intros H; injection H as <-; reflexivity).
  rewrite get_dict. cbn [obind]. intros H.
  repeat (rewrite get_dict, mbind_lift_ret; cbv beta).
  now rewrite H.
Qed.

Lemma filter_raises (rt : Runtime)
    (detail event_name aws_region event_time event_source user_name : Value)
    (e : Exc) :
  contains (py "@xyz.com") user_name = Raise e ->
  filter_and_notify rt detail event_name aws_region event_time event_source user_name
  = ([], Raise e).
Proof. intros H. unfold filter_and_notify. now rewrite H. Qed.

Lemma extraction_raises (rt : Runtime)
    (detail event_name aws_region event_time event_source user_name : Value)
    (e : Exc) :
  contains (py "@xyz.com") user_name = Ret true ->
  extract_resource_details detail event_name = Raise e ->
  filter_and_notify rt detail event_name aws_region event_time event_source user_name
  = ([Call Fextract_resource_details], Raise e).
Proof.
  intros Hfilter Hextract. unfold filter_and_notify.
  rewrite Hfilter, mbind_lift_ret. cbn [negb]. now rewrite Hextract.
Qed.

Lemma delivery_raises (rt : Runtime)
    (detail event_name aws_region event_time event_source user_name : Value)
    (k : pystr) (v : Value) (ts : list Effect) (e : Exc) :
  contains (py "@xyz.com") user_name = Ret true ->
  extract_resource_details detail event_name = Ret (k, v) ->
  let text :=
    render rt user_name event_source event_name k v aws_region event_time in
  send_slack_notification rt (VDict [(py "text", VStr text)]) = (ts, Raise e) ->
  filter_and_notify rt detail event_name aws_region event_time event_source user_name
  = (Call Fextract_resource_details
       :: Log info (py "Sending Slack alert: %s") [VDict [(py "text", VStr text)]]
       :: Call Fsend_slack_notification :: ts,
     Raise e).
Proof.
  intros Hfilter Hextract text Hsend. unfold filter_and_notify.
  rewrite Hfilter, mbind_lift_ret. cbn [negb].
  rewrite Hextract. unfold call at 1, lift. cbn [mbind app].
  fold text. rewrite mbind_logger, call_trace, Hsend. reflexivity.
Qed.

Lemma send_rejected (rt : Runtime) (text : pystr) (e : Exc) :
  SLACK_WEBHOOK_URL rt <> [] ->
  request_error rt (SLACK_WEBHOOK_URL rt) = Some e ->
  send_slack_notification rt (VDict [(py "text", VStr text)]) = ([], Raise e).
Proof.
  intros Hurl Hreq. unfold send_slack_notification.
  rewrite payload_encodes, mbind_lift_ret. unfold Request_new. rewrite Hreq.
  destruct (SLACK_WEBHOOK_URL rt); [congruence|reflexivity].
Qed.

(** The delivery step raises only when the constructor of the request
    does, and then nothing has been sent. *)
Lemma send_cases (rt : Runtime) (text : pystr) :
  exists ts o,
    send_slack_notification rt (VDict [(py "text", VStr text)]) = (ts, o)
    /\ match o with
       | Ret _ =>
         (SLACK_WEBHOOK_URL rt = [] -> outbound ts = [])
         /\ (SLACK_WEBHOOK_URL rt <> [] -> outbound ts = [slack_request rt text])
       | Raise e =>
         SLACK_WEBHOOK_URL rt <> []
         /\ request_error rt (SLACK_WEBHOOK_URL rt) = Some e /\ ts = []
       end.
Proof.
  assert (Hurl : SLACK_WEBHOOK_URL rt = [] \/ SLACK_WEBHOOK_URL rt <> [])
    by (destruct (SLACK_WEBHOOK_URL rt); [now left|now right]).
  destruct Hurl as [Hurl|Hurl].
  - destruct (send_returns rt text (or_introl Hurl)) as [ts [Hsend Hout]].
    now exists ts, (Ret tt).
  - destruct (request_error rt (SLACK_WEBHOOK_URL rt)) as [e|] eqn:Hreq.
    + exists [], (Raise e). split; [now apply send_rejected|now repeat split].
    + destruct (send_returns rt text (or_intror Hreq)) as [ts [Hsend Hout]].
      now exists ts, (Ret tt).
Qed.

(** An invocation whose trace records a call of the delivery step has
    resolved an actor that passes the filter and has extracted a resource;
    its result is the processed one, unless the delivery step raised, in
    which case nothing was sent. *)
Lemma delivery_reached (rt : Runtime) (event context : Value)
    (t : list Effect) (r : Result) :
  lambda_handler rt event context = (t, Ret r) ->
  calls Fsend_slack_notification t = true ->
  exists user_name k v,
    resolved_actor event = Ret user_name
    /\ contains (py "@xyz.com") user_name = Ret true
    /\ extract_resource_details (detail_of event)
         (detail_field event (py "eventName") (py "UnknownEvent")) = Ret (k, v)
    /\ (r = notified rt (message_text rt event user_name k v)
        \/ (SLACK_WEBHOOK_URL rt <> [] /\ outbound t = [])).
Proof.
  intros Hrun Hcalls.
  destruct (resolved_actor event) as [user_name|e] eqn:Hactor.
  - destruct (contains (py "@xyz.com") user_name) as [[|]|e] eqn:Hfilter.
    + destruct (extract_resource_details (detail_of event)
                  (detail_field event (py "eventName") (py "UnknownEvent")))
        as [[k v]|e] eqn:Hextract.
      * exists user_name, k, v.
        split; [reflexivity|]. split; [exact Hfilter|]. split; [reflexivity|].
        destruct (send_cases rt (message_text rt event user_name k v))
          as [ts [[[]|e] [Hsend Hout]]].
        -- left.
           rewrite (handler_notifies rt event context user_name k v ts
                      Hactor Hfilter Hextract Hsend) in Hrun.
           now injection Hrun as _ <-.
        -- right. destruct Hout as [Hurl [_ ->]]. split; [exact Hurl|].
           rewrite (lambda_handler_catches rt event context
                      [Call Fextract_resource_details;
                       Log info (py "Sending Slack alert: %s")
                         [VDict [(py "text",
                                  VStr (message_text rt event user_name k v))]];
                       Call Fsend_slack_notification] e) in Hrun.
           ++ now injection Hrun as <- _.
           ++ rewrite (handler_body_resolved _ _ _ Hactor).
              unfold message_text in Hsend |- *.
              exact (delivery_raises rt _ _ _ _ _ _ k v [] e
                       Hfilter Hextract Hsend).
      * rewrite (lambda_handler_catches rt event context
                   [Call Fextract_resource_details] e) in Hrun.
        -- injection Hrun as <- _. discriminate Hcalls.
        -- rewrite (handler_body_resolved _ _ _ Hactor).
           now apply extraction_raises.
    + rewrite (handler_skips rt event context user_name Hactor Hfilter) in Hrun.
      injection Hrun as <- _. discriminate Hcalls.
    + rewrite (lambda_handler_catches rt event context [] e) in Hrun.
      * injection Hrun as <- _. discriminate Hcalls.
      * rewrite (handler_body_resolved _ _ _ Hactor). now apply filter_raises.
  - rewrite (lambda_handler_catches rt event context [] e) in Hrun.
    + injection Hrun as <- _. discriminate Hcalls.
    + now apply handler_body_unresolved.
Qed.

(** C8: the delivery step absorbs a missing endpoint and a failing call:
    with no endpoint it logs an error and returns without an outbound call,
    with a call that fails it logs the error and returns; and an invocation
    that has reached the delivery step returns the "Notification sent"
    result with status 200 in both cases. *)
Theorem delivery_outcome_keeps_status (rt : Runtime) :
  (forall message,
      SLACK_WEBHOOK_URL rt = [] ->
      send_slack_notification rt message
      = ([Log error (py "SLACK_WEBHOOK_URL not set in environment variables.") []],
         Ret tt))
  /\ (forall message data e,
         SLACK_WEBHOOK_URL rt <> [] ->
         encode_utf8 (json_dumps rt message) = Ret data ->
         request_error rt (SLACK_WEBHOOK_URL rt) = None ->
         urlopen rt
           (mkRequest (SLACK_WEBHOOK_URL rt) data
              [(py "Content-Type", py "application/json")]) = Raise e ->
         send_slack_notification rt message
         = ([UrlOpen (mkRequest (SLACK_WEBHOOK_URL rt) data
                        [(py "Content-Type", py "application/json")]);
             Log error (py "Error sending Slack notification: %s")
               [VStr (exc_msg e)]],
            Ret tt))
  /\ (forall event context t r,
         lambda_handler rt event context = (t, Ret r) ->
         calls Fsend_slack_notification t = true ->
         SLACK_WEBHOOK_URL rt = []
         \/ (exists req e, outbound t = [req] /\ urlopen rt req = Raise e) ->
         statusCode r = 200%Z
         /\ exists text,
             body r
             = json_dumps rt
                 (VDict [(py "message", VStr (py "Notification sent"));
                         (py "slack_message", VDict [(py "text", VStr text)])]))
  /\ (forall event context user_name k v,
         resolved_actor event = Ret user_name ->
         contains (py "@xyz.com") user_name = Ret true ->
         extract_resource_details (detail_of event)
           (detail_field event (py "eventName") (py "UnknownEvent")) = Ret (k, v) ->
         SLACK_WEBHOOK_URL rt = []
         \/ (request_error rt (SLACK_WEBHOOK_URL rt) = None
             /\ exists e,
                 urlopen rt (slack_request rt (message_text rt event user_name k v))
                 = Raise e) ->
         exists t,
           lambda_handler rt event context
           = (t, Ret (notified rt (message_text rt event user_name k v)))
           /\ calls Fsend_slack_notification t = true
           /\ (SLACK_WEBHOOK_URL rt = [] -> outbound t = [])).
Proof.
  split; [|split; [|split]].
  - intros message H. now apply send_unconfigured.
  - intros message data e Hurl Hdata Hreq Hopen.
    rewrite (send_configured rt message data Hurl Hdata Hreq).
    cbv zeta. unfold delivery_record. now rewrite Hopen.
  - intros event context t r Hrun Hcalls Hcase.
    destruct (delivery_reached rt event context t r Hrun Hcalls)
      as (user_name & k & v & _ & _ & _ & [-> | [Hurl Hnone]]).
    + split; [reflexivity|]. now eexists.
    + exfalso. destruct Hcase as [Hunset | (req & e & Hout & _)];
        [contradiction|congruence].
  - intros event context user_name k v Hactor Hfilter Hextract Hdelivery.
    destruct (send_returns rt (message_text rt event user_name k v))
      as [ts [Hsend [Hnone _]]].
    { destruct Hdelivery as [H|[H _]]; [now left|now right]. }
    eexists. split; [|split].
    + exact (handler_notifies rt event context user_name k v ts
               Hactor Hfilter Hextract Hsend).
    + reflexivity.
    + intros H. cbn [outbound]. now apply Hnone.
Qed.

Lemma delivery_outcome_keeps_status_witness :
  (exists t,
      lambda_handler unconfigured
        (sample_event (py "RunInstances")
           (VDict [(py "userName", VStr (py "alice@xyz.com"))]) one_instance)
        VNone
      = (t, Ret (notified unconfigured
                   (message_text unconfigured
                      (sample_event (py "RunInstances")
                         (VDict [(py "userName", VStr (py "alice@xyz.com"))])
                         one_instance)
                      (VStr (py "alice@xyz.com")) (py "Instance_ID")
                      (VStr (py "i-0abc")))))
      /\ calls Fsend_slack_notification t = true
      /\ (SLACK_WEBHOOK_URL unconfigured = [] -> outbound t = []))
  /\ (exists t,
        lambda_handler unreachable
          (sample_event (py "RunInstances")
             (VDict [(py "userName", VStr (py "alice@xyz.com"))]) one_instance)
          VNone
        = (t, Ret (notified unreachable
                     (message_text unreachable
                        (sample_event (py "RunInstances")
                           (VDict [(py "userName", VStr (py "alice@xyz.com"))])
                           one_instance)
                        (VStr (py "alice@xyz.com")) (py "Instance_ID")
                        (VStr (py "i-0abc")))))
        /\ calls Fsend_slack_notification t = true
        /\ (SLACK_WEBHOOK_URL unreachable = [] -> outbound t = [])).
Proof.
  split.
  - refine (proj2 (proj2 (proj2 (delivery_outcome_keeps_status unconfigured)))
              (sample_event (py "RunInstances")
                 (VDict [(py "userName", VStr (py "alice@xyz.com"))]) one_instance)
              VNone (VStr (py "alice@xyz.com")) (py "Instance_ID")
              (VStr (py "i-0abc")) _ _ _ _).
    + vm_compute. reflexivity.
    + vm_compute. reflexivity.
    + vm_compute. reflexivity.
    + left. vm_compute. reflexivity.
  - refine (proj2 (proj2 (proj2 (delivery_outcome_keeps_status unreachable)))
              (sample_event (py "RunInstances")
                 (VDict [(py "userName", VStr (py "alice@xyz.com"))]) one_instance)
              VNone (VStr (py "alice@xyz.com")) (py "Instance_ID")
              (VStr (py "i-0abc")) _ _ _ _).
    + vm_compute. reflexivity.
    + vm_compute. reflexivity.
    + vm_compute. reflexivity.
    + right. split; [vm_compute; reflexivity|].
      eexists. vm_compute. reflexivity.
Defined.

(** ** The message *)

Lemma str_contains_concat (pieces : list pystr) (p : pystr) :
  In p pieces -> str_contains p (List.concat pieces) = true.
Proof.
  intros H. apply in_split in H as [l1 [l2 ->]].
  rewrite concat_app. cbn [List.concat]. apply str_contains_mid.
Qed.

Lemma render_lines (rt : Runtime) (u es en : Value) (k : pystr) (v reg tm : Value) :
  render rt u es en k v reg tm
  = List.concat [header_line; user_line rt u; source_line rt es; event_line rt en;
            resource_part rt k v; region_line rt reg; time_line rt tm].
Proof.
  unfold render, header_line, user_line, source_line, event_line, resource_part,
    resource_line, region_line, time_line.
  cbn [List.concat]. rewrite app_nil_r.
  destruct (truthy (VStr k) && truthy v); rewrite <- ?app_assoc; reflexivity.
Qed.

Lemma resource_line_not_empty (rt : Runtime) (k : pystr) (v : Value) :
  resource_line rt k v <> [].
Proof. unfold resource_line. discriminate. Qed.

Lemma detail_of_resolved (event user_name : Value) :
  resolved_actor event = Ret user_name -> exists d, detail_of event = VDict d.
Proof.
  unfold resolved_actor.
  destruct event as [| | | | | |ev]; try discriminate.
  rewrite get_dict. cbn [obind detail_of].
  destruct (lookup_or (py "detail") ev (VDict [])) as [| | | | | |d];
    try discriminate.
  now exists d.
Qed.

(** C9: the message is the header, actor, event source and event name
    lines, then the resource line exactly when the resource key and value
    are both non-empty, then the region and time lines; for an event name
    without a rule and an actor that passes the filter, the message sent has
    no resource line and the result has status 200. *)
Theorem message_has_resource_line_iff (rt : Runtime) :
  (forall u es en k v reg tm,
      exists R,
        render rt u es en k v reg tm
        = header_line ++ user_line rt u ++ source_line rt es ++ event_line rt en
          ++ R ++ region_line rt reg ++ time_line rt tm
        /\ (R = resource_line rt k v \/ R = [])
        /\ (R = resource_line rt k v <-> k <> [] /\ truthy v = true)
        /\ (forall s, v = VStr s -> (R = resource_line rt k v <-> k <> [] /\ s <> []))
        /\ Forall (fun line => str_contains line (render rt u es en k v reg tm) = true)
             [header_line; user_line rt u; source_line rt es; event_line rt en;
              R; region_line rt reg; time_line rt tm])
  /\ (forall event context user_name name,
         resolved_actor event = Ret user_name ->
         contains (py "@xyz.com") user_name = Ret true ->
         detail_field event (py "eventName") (py "UnknownEvent") = VStr name ->
         ~ In name registered_event_names ->
         SLACK_WEBHOOK_URL rt = [] \/ request_error rt (SLACK_WEBHOOK_URL rt) = None ->
         exists t text,
           lambda_handler rt event context = (t, Ret (notified rt text))
           /\ text
              = header_line ++ user_line rt user_name
                ++ source_line rt (detail_field event (py "eventSource") (py "Unknown"))
                ++ event_line rt (VStr name)
                ++ region_line rt (detail_field event (py "awsRegion") (py "Unknown"))
                ++ time_line rt (detail_field event (py "eventTime") (py "Unknown"))
           /\ statusCode (notified rt text) = 200%Z
           /\ calls Fsend_slack_notification t = true
           /\ (SLACK_WEBHOOK_URL rt <> [] -> outbound t = [slack_request rt text])).
Proof.
  split.
  - intros u es en k v reg tm. exists (resource_part rt k v).
    assert (Hiff : resource_part rt k v = resource_line rt k v
                   <-> k <> [] /\ truthy v = true).
    { unfold resource_part. destruct k as [|c k]; cbn [truthy andb].
      - split; [intros H; symmetry in H; now apply resource_line_not_empty in H
               |intros [H _]; congruence].
      - destruct (truthy v).
        + split; [split; [discriminate|reflexivity]|reflexivity].
        + split; [intros H; symmetry in H; now apply resource_line_not_empty in H
                 |intros [_ H]; discriminate H]. }
    split; [|split; [|split; [|split]]].
    + rewrite render_lines. cbn [List.concat]. now rewrite app_nil_r.
    + unfold resource_part. destruct (truthy (VStr k) && truthy v); [now left|now right].
    + exact Hiff.
    + intros s ->. rewrite Hiff. cbn [truthy].
      destruct s; split; intros [Hk Hs]; split; congruence || discriminate.
    + rewrite render_lines. apply Forall_forall. intros line Hline.
      now apply str_contains_concat.
  - intros event context user_name name Hactor Hfilter Hname Hunreg Hdelivery.
    destruct (detail_of_resolved _ _ Hactor) as [d Hd].
    assert (Hextract :
              extract_resource_details (detail_of event)
                (detail_field event (py "eventName") (py "UnknownEvent"))
              = Ret (py "", VStr (py ""))).
    { rewrite Hd, Hname. now apply extract_default. }
    destruct (send_returns rt
                (message_text rt event user_name (py "") (VStr (py "")))
                Hdelivery) as [ts [Hsend [_ Hsome]]].
    exists (received rt event
              :: Call Fextract_resource_details
              :: Log info (py "Sending Slack alert: %s")
                   [VDict [(py "text",
                            VStr (message_text rt event user_name (py "")
                                    (VStr (py ""))))]]
              :: Call Fsend_slack_notification :: ts),
      (message_text rt event user_name (py "") (VStr (py ""))).
    split; [|split; [|split; [|split]]].
    + exact (handler_notifies rt event context user_name (py "") (VStr (py "")) ts
               Hactor Hfilter Hextract Hsend).
    + unfold message_text. rewrite render_lines, Hname. cbn [List.concat].
      now rewrite app_nil_r.
    + reflexivity.
    + reflexivity.
    + intros H. cbn [outbound]. now apply Hsome.
Qed.

Lemma message_has_resource_line_iff_witness :
  exists t text,
    lambda_handler reachable
      (sample_event (py "UnknownThing")
         (VDict [(py "userName", VStr (py "alice@xyz.com"))]) one_instance)
      VNone
    = (t, Ret (notified reachable text))
    /\ text
       = header_line ++ user_line reachable (VStr (py "alice@xyz.com"))
         ++ source_line reachable (VStr (py "ec2.amazonaws.com"))
         ++ event_line reachable (VStr (py "UnknownThing"))
         ++ region_line reachable (VStr (py "eu-west-1"))
         ++ time_line reachable (VStr (py "2024-05-01T10:00:00Z"))
    /\ statusCode (notified reachable text) = 200%Z
    /\ calls Fsend_slack_notification t = true
    /\ (SLACK_WEBHOOK_URL reachable <> [] -> outbound t = [slack_request reachable text]).
Proof.
  refine (proj2 (message_has_resource_line_iff reachable)
            (sample_event (py "UnknownThing")
               (VDict [(py "userName", VStr (py "alice@xyz.com"))]) one_instance)
            VNone (VStr (py "alice@xyz.com")) (py "UnknownThing") _ _ _ _ _).
  - vm_compute. reflexivity.
  - vm_compute. reflexivity.
  - vm_compute. reflexivity.
  - intros H. vm_compute in H.
    repeat (destruct H as [H|H]; [discriminate H|]). exact H.
  - right. vm_compute. reflexivity.
Defined.

(** ** The unknown actor *)

(** C10: a [userIdentity] with no [principalId] and with no [userName], or an
    empty one, resolves to "UnknownUser"; that actor fails the filter, so
    the event is skipped without extraction and without delivery. *)
Theorem unknown_user_is_skipped (rt : Runtime) (event context : Value)
    (user_identity : dict) :
  traverse [py "detail"; py "userIdentity"] event = Present (VDict user_identity) ->
  dict_lookup (py "userName") user_identity = None
  \/ dict_lookup (py "userName") user_identity = Some (VStr (py "")) ->
  dict_lookup (py "principalId") user_identity = None ->
  resolved_actor event = Ret (VStr (py "UnknownUser"))
  /\ str_contains (py "@xyz.com") (py "UnknownUser") = false
  /\ exists t,
      lambda_handler rt event context = (t, Ret skipped)
      /\ calls Fextract_resource_details t = false
      /\ calls Fsend_slack_notification t = false
      /\ outbound t = [].
Proof.
  intros Hpath Hname Hprincipal.
  assert (Hactor : resolved_actor event = Ret (VStr (py "UnknownUser"))).
  { unfold resolved_actor. cbn [traverse] in Hpath.
    destruct event as [| | | | | |ev]; try discriminate Hpath.
    rewrite get_dict. unfold lookup_or.
    destruct (dict_lookup (py "detail") ev) as [[| | | | | |d]|];
      try discriminate Hpath.
    cbn [obind]. rewrite get_dict. unfold lookup_or.
    destruct (dict_lookup (py "userIdentity") d) as [ui|]; [|discriminate Hpath].
    injection Hpath as ->. cbn [obind].
    unfold resolve_actor. rewrite !get_dict. unfold lookup_or.
    rewrite Hprincipal. destruct Hname as [-> | ->]; reflexivity. }
  split; [exact Hactor|]. split; [reflexivity|].
  eexists. split; [apply (handler_skips rt event context _ Hactor); reflexivity|].
  repeat split.
Qed.

Lemma unknown_user_is_skipped_witness :
  resolved_actor
    (sample_event (py "RunInstances") (VDict [(py "type", VStr (py "AWSService"))])
       one_instance)
  = Ret (VStr (py "UnknownUser"))
  /\ str_contains (py "@xyz.com") (py "UnknownUser") = false
  /\ exists t,
      lambda_handler reachable
        (sample_event (py "RunInstances") (VDict [(py "type", VStr (py "AWSService"))])
           one_instance)
        VNone
      = (t, Ret skipped)
      /\ calls Fextract_resource_details t = false
      /\ calls Fsend_slack_notification t = false
      /\ outbound t = [].
Proof.
  refine (unknown_user_is_skipped reachable
            (sample_event (py "RunInstances")
               (VDict [(py "type", VStr (py "AWSService"))]) one_instance)
            VNone [(py "type", VStr (py "AWSService"))] _ _ _).
  - vm_compute. reflexivity.
  - left. vm_compute. reflexivity.
  - vm_compute. reflexivity.
Defined.

(** An empty [userName] with no [principalId] gives the same actor. *)
Example empty_user_name_is_unknown :
  resolved_actor
    (sample_event (py "RunInstances") (VDict [(py "userName", VStr (py ""))])
       one_instance)
  = Ret (VStr (py "UnknownUser")).
Proof. vm_compute. reflexivity. Qed.

(** ** The scenarios of the specification *)

Example literals_are_code_points :
  py "@xyz.com" = [64; 120; 121; 122; 46; 99; 111; 109]
  /\ py "🚨👤🛠🌍🕒" = [0x1F6A8; 0x1F464; 0x1F6E0; 0x1F30D; 0x1F552].
Proof. split; vm_compute; reflexivity. Qed.

Example split_examples :
  str_split (py ":") (py "arn:aws:iam::123:role/xyz.com-svc")
  = [py "arn"; py "aws"; py "iam"; py ""; py "123"; py "role/xyz.com-svc"]
  /\ str_split (py "ab") (py "xabyababz") = [py "x"; py "y"; py ""; py "z"].
Proof. split; vm_compute; reflexivity. Qed.

(** Scenario A: a launch by a listed actor is delivered with its resource
    line. *)
Example scenario_A :
  let event :=
    sample_event (py "RunInstances")
      (VDict [(py "userName", VStr (py "alice@xyz.com"))]) one_instance in
  let text :=
    message_text reachable event (VStr (py "alice@xyz.com")) (py "Instance_ID")
      (VStr (py "i-0abc")) in
  snd (lambda_handler reachable event VNone) = Ret (notified reachable text)
  /\ outbound (fst (lambda_handler reachable event VNone))
     = [slack_request reachable text]
  /\ str_contains (py "Instance_ID: `i-0abc`") text = true.
Proof. vm_compute. repeat split. Qed.

(** Scenario B: the same launch by an actor of another domain is skipped. *)
Example scenario_B :
  let event :=
    sample_event (py "RunInstances")
      (VDict [(py "userName", VStr (py "bob@other.com"))]) one_instance in
  snd (lambda_handler reachable event VNone) = Ret skipped
  /\ outbound (fst (lambda_handler reachable event VNone)) = [].
Proof. vm_compute. repeat split. Qed.

(** Scenario D: with no endpoint configured the result is the one of
    scenario A and nothing is sent. *)
Example scenario_D :
  let event :=
    sample_event (py "RunInstances")
      (VDict [(py "userName", VStr (py "alice@xyz.com"))]) one_instance in
  snd (lambda_handler unconfigured event VNone)
  = snd (lambda_handler reachable event VNone)
  /\ outbound (fst (lambda_handler unconfigured event VNone)) = [].
Proof. vm_compute. repeat split. Qed.

(** The body of a processed event, as [json.dumps] writes it. *)
Example notified_body :
  body (notified reachable (py "🚨 a\b" ++ nl))
  = py "{" ++ [34] ++ py "message" ++ [34] ++ py ": " ++ [34]
    ++ py "Notification sent" ++ [34] ++ py ", " ++ [34] ++ py "slack_message"
    ++ [34] ++ py ": {" ++ [34] ++ py "text" ++ [34] ++ py ": " ++ [34]
    ++ py "\ud83d\udea8 a\\b\n" ++ [34] ++ py "}}".
Proof. vm_compute. reflexivity. Qed.

(** * Further properties of the module *)

(** ** The extractor, on every input *)

Lemma get_raises (v : Value) (k : pystr) (default : Value) (e : Exc) :
  get v k default = Raise e -> exc_type e = AttributeError.
Proof. destruct v; simpl; intros H; try (now injection H as <-); discriminate H. Qed.

Lemma walk_inv {A : Type} (path : list pystr) (first : bool) (v : Value)
    (k : Value -> Outcome A) (o : Outcome A) :
  walk path first v k = o ->
  (exists c, k c = o) \/ (exists e, o = Raise e /\ exc_type e = AttributeError).
Proof.
  revert v. induction path as [|key rest IH]; intros v H.
  - left. now exists v.
  - destruct rest as [|key' rest].
    + rewrite walk_last in H.
      destruct (get v key (if first then VList [] else VDict [])) as [c|e] eqn:G.
      * left. now exists c.
      * right. exists e. split; [now rewrite <- H|now apply get_raises in G].
    + rewrite walk_step in H.
      destruct (get v key (VDict [])) as [x|e] eqn:G.
      * now apply (IH x).
      * right. exists e. split; [now rewrite <- H|now apply get_raises in G].
Qed.

(** Taking the first element of a truthy value never runs out of range. *)
Lemma subscript_first (c : Value) :
  truthy c = true ->
  (exists x, subscript c 0 = Ret x)
  \/ (exists e, subscript c 0 = Raise e
                /\ (exc_type e = TypeError \/ exc_type e = KeyError)).
Proof.
  destruct c as [| | | |s|l|d]; intros H; try discriminate H;
    try (right; eexists; split; [reflexivity|]; cbn; tauto).
  - left. destruct s as [|c s]; [discriminate H|].
    unfold subscript. cbn [List.length].
    replace ((0 <? 0)%Z) with false by reflexivity.
    replace ((0 <=? 0)%Z) with true by reflexivity.
    replace ((0 <? Z.of_nat (S (List.length s)))%Z) with true
      by (symmetry; apply Z.ltb_lt; lia).
    now eexists.
  - left. destruct l as [|x l]; [discriminate H|].
    unfold subscript. cbn [List.length].
    replace ((0 <? 0)%Z) with false by reflexivity.
    replace ((0 <=? 0)%Z) with true by reflexivity.
    replace ((0 <? Z.of_nat (S (List.length l)))%Z) with true
      by (symmetry; apply Z.ltb_lt; lia).
    now eexists.
Qed.

(** What the continuation of a rule can give. *)
Lemma rule_continuation_inv (r : Rule) (c : Value) (o : Outcome (pystr * Value)) :
  (if rule_first r then
     if truthy c then
       first <- subscript c 0 ;;
       resourceValue <- get first (rule_leaf r) (VStr (py "")) ;;
       Ret (rule_label r, resourceValue)
     else Ret (py "", VStr (py ""))
   else
     resourceValue <- get c (rule_leaf r) (VStr (py "")) ;;
     Ret (rule_label r, resourceValue))%outcome = o ->
  o = Ret (py "", VStr (py ""))
  \/ (exists v, o = Ret (rule_label r, v))
  \/ (exists e, o = Raise e
                /\ (exc_type e = AttributeError \/ exc_type e = TypeError
                    \/ exc_type e = KeyError)).
Proof.
  intros H. destruct (rule_first r).
  - destruct (truthy c) eqn:T; [|now left].
    destruct (subscript_first c T) as [[x Hx]|[e [He Ht]]]; rewrite ?Hx, ?He in H;
      cbn [obind] in H.
    + destruct (get x (rule_leaf r) (VStr (py ""))) as [v|e] eqn:G; cbn [obind] in H.
      * right. left. now exists v.
      * right. right. exists e. split; [now rewrite <- H|].
        left. now apply get_raises in G.
    + right. right. exists e. split; [now rewrite <- H|tauto].
  - destruct (get c (rule_leaf r) (VStr (py ""))) as [v|e] eqn:G; cbn [obind] in H.
    + right. left. now exists v.
    + right. right. exists e. split; [now rewrite <- H|].
      left. now apply get_raises in G.
Qed.

(** Every outcome of the extractor: the empty pair, the label of the rule
    of the event name with a value, or one of three exceptions. *)
Lemma extract_outcomes (detail event_name : Value) :
  extract_resource_details detail event_name = Ret (py "", VStr (py ""))
  \/ (exists r v,
         rule_of event_name = Some r
         /\ extract_resource_details detail event_name = Ret (rule_label r, v))
  \/ (exists e,
         extract_resource_details detail event_name = Raise e
         /\ (exc_type e = AttributeError \/ exc_type e = TypeError
             \/ exc_type e = KeyError)).
Proof.
  rewrite extract_follows_table. unfold extract_by_table.
  destruct (get detail (py "responseElements") (VDict [])) as [re|e] eqn:Gre.
  2:{ right. right. exists e. split.
      - destruct (rule_of event_name); unfold run_rule; rewrite ?Gre; reflexivity.
      - left. now apply get_raises in Gre. }
  destruct (get detail (py "requestParameters") (VDict [])) as [rp|e] eqn:Grp.
  2:{ right. right. exists e. split.
      - destruct (rule_of event_name); unfold run_rule; rewrite ?Gre, ?Grp;
          reflexivity.
      - left. now apply get_raises in Grp. }
  destruct (rule_of event_name) as [r|] eqn:Hrule; [|now left].
  unfold run_rule. rewrite Gre, Grp. cbn [obind].
  match goal with
  | |- walk ?p ?f ?v ?k = _ \/ _ =>
    destruct (walk_inv p f v k (walk p f v k) eq_refl) as [[c Hc]|[e [He Ht]]]
  end.
  - rewrite <- Hc. cbv beta.
    match goal with
    | |- ?x = _ \/ _ =>
      destruct (rule_continuation_inv r c x eq_refl) as [H|[[v H]|[e [H Ht]]]]
    end.
    + now left.
    + right. left. now exists r, v.
    + right. right. now exists e.
  - right. right. exists e. split; [exact He|now left].
Qed.

Lemma in_list_inv (v : Value) (l : list pystr) :
  in_list v l = true -> exists s, v = VStr s /\ In s l.
Proof.
  unfold in_list. intros H. apply existsb_exists in H as [x [Hx E]].
  destruct v; try discriminate E. apply str_eqb_eq in E. subst. now eexists.
Qed.

Lemma rule_of_registered (event_name : Value) (r : Rule) :
  rule_of event_name = Some r ->
  exists name, event_name = VStr name /\ In name registered_event_names.
Proof.
  intros H. destruct (in_list_inv _ _ (find_rule_names _ _ _ H)) as [s [-> Hs]].
  exists s. split; [reflexivity|]. rewrite <- table_names.
  apply in_flat_map. exists r. split; [|exact Hs].
  now apply (find_rule_in (VStr s)).
Qed.

Lemma rule_of_non_string (event_name : Value) :
  is_str event_name = false -> rule_of event_name = None.
Proof.
  intros H. destruct (rule_of event_name) as [r|] eqn:E; [|reflexivity].
  destruct (rule_of_registered _ _ E) as [name [-> _]]. discriminate H.
Qed.

(** The if-chain of the extractor is a lookup in the table of rules followed
    by the walk the rule describes: same result, same exception, for every
    detail and every event name, whatever their types. *)
Theorem extractor_is_table_lookup (detail event_name : Value) :
  extract_resource_details detail event_name = extract_by_table detail event_name.
Proof. exact (extract_follows_table detail event_name). Qed.

(** The extractor never raises [IndexError]: the first element of a list is
    taken only behind the truth test of lines 26 and 34.  What it can raise
    is [AttributeError] (a [get] on something that is not a mapping),
    [TypeError] (a truthy number or boolean subscripted) and [KeyError] (a
    non-empty mapping subscripted with 0). *)
Theorem extractor_exceptions (detail event_name : Value) (e : Exc) :
  extract_resource_details detail event_name = Raise e ->
  exc_type e = AttributeError \/ exc_type e = TypeError \/ exc_type e = KeyError.
Proof.
  intros H.
  destruct (extract_outcomes detail event_name)
    as [E|[(r & v & _ & E)|(e' & E & Ht)]]; rewrite E in H; try discriminate H.
  now injection H as <-.
Qed.

Lemma extractor_exceptions_witness :
  exc_type (mkExc KeyError (py "0")) = AttributeError
  \/ exc_type (mkExc KeyError (py "0")) = TypeError
  \/ exc_type (mkExc KeyError (py "0")) = KeyError.
Proof.
  refine (extractor_exceptions
            (VDict [(py "responseElements",
                     VDict [(py "loadBalancers",
                             VDict [(py "loadBalancerName", VStr (py "lb-1"))])])])
            (VStr (py "CreateLoadBalancer")) (mkExc KeyError (py "0")) _).
  vm_compute. reflexivity.
Defined.

(** What the extractor returns: an empty key comes with the empty string
    as value, and a non-empty key is the label of the rule of the event
    name, which is then one of the registered names. *)
Theorem extractor_result_shape (detail event_name : Value) (k : pystr) (v : Value) :
  extract_resource_details detail event_name = Ret (k, v) ->
  (k = [] -> v = VStr [])
  /\ (k <> [] ->
      exists name r,
        event_name = VStr name /\ In name registered_event_names
        /\ rule_of event_name = Some r /\ k = rule_label r).
Proof.
  intros H.
  destruct (extract_outcomes detail event_name)
    as [E|[(r & v' & Hrule & E)|(e' & E & _)]]; rewrite E in H;
    try discriminate H.
  - injection H as <- <-. split; [reflexivity|intros Hk; now destruct Hk].
  - injection H as <- <-.
    assert (Hlabel : rule_label r <> []).
    { apply (table_rules_wf r). now apply (find_rule_in event_name). }
    split; [intros Hk; contradiction|]. intros _.
    destruct (rule_of_registered _ _ Hrule) as [name [-> Hname]].
    now exists name, r.
Qed.

Lemma extractor_result_shape_witness :
  (py "User_ID" = [] -> VStr (py "alice") = VStr [])
  /\ (py "User_ID" <> [] ->
      exists name r,
        VStr (py "DeleteUser") = VStr name /\ In name registered_event_names
        /\ rule_of (VStr (py "DeleteUser")) = Some r /\ py "User_ID" = rule_label r).
Proof.
  refine (extractor_result_shape
            (VDict [(py "responseElements",
                     VDict [(py "user", VDict [(py "userName", VStr (py "alice"))])])])
            (VStr (py "DeleteUser")) (py "User_ID") (VStr (py "alice")) _).
  vm_compute. reflexivity.
Defined.

(** An event name that is not a string (a number, [null], a list, a
    mapping) matches no rule: the extractor returns the empty pair for every
    detail mapping and does not raise. *)
Theorem extractor_ignores_non_string_names (detail : dict) (event_name : Value) :
  is_str event_name = false ->
  extract_resource_details (VDict detail) event_name = Ret (py "", VStr (py "")).
Proof.
  intros H. rewrite extract_follows_table. unfold extract_by_table.
  now rewrite (rule_of_non_string _ H).
Qed.

Lemma extractor_ignores_non_string_names_witness :
  extract_resource_details
    (VDict [(py "responseElements", VNone)]) (VList [VStr (py "RunInstances")])
  = Ret (py "", VStr (py "")).
Proof.
  exact (extractor_ignores_non_string_names
           [(py "responseElements", VNone)] (VList [VStr (py "RunInstances")])
           eq_refl).
Defined.

(** The extractor reads two fields of the detail mapping and nothing else:
    [responseElements], and [requestParameters] for the event name
    "CreateSecret" only.  Two details that agree there give the same
    outcome. *)
Theorem extractor_reads_two_fields (d1 d2 : dict) (event_name : Value) :
  dict_lookup (py "responseElements") d1 = dict_lookup (py "responseElements") d2 ->
  (eq_str event_name (py "CreateSecret") = true ->
   dict_lookup (py "requestParameters") d1 = dict_lookup (py "requestParameters") d2) ->
  extract_resource_details (VDict d1) event_name
  = extract_resource_details (VDict d2) event_name.
Proof.
  intros Hre Hrp. unfold extract_resource_details.
  rewrite !get_dict. cbn [obind]. unfold lookup_or. rewrite Hre.
  repeat
    match goal with
    | |- context [if in_list event_name ?l then _ else _] =>
      destruct (in_list event_name l); [reflexivity|]
    end.
  destruct (eq_str event_name (py "CreateSecret")).
  - now rewrite (Hrp eq_refl).
  - reflexivity.
Qed.

Lemma extractor_reads_two_fields_witness :
  extract_resource_details
    (VDict [(py "eventName", VStr (py "CreateRole"));
            (py "requestParameters", VStr (py "not a mapping"));
            (py "responseElements",
             VDict [(py "role", VDict [(py "roleName", VStr (py "deployer"))])])])
    (VStr (py "CreateRole"))
  = extract_resource_details
      (VDict [(py "responseElements",
               VDict [(py "role", VDict [(py "roleName", VStr (py "deployer"))])])])
      (VStr (py "CreateRole")).
Proof.
  refine (extractor_reads_two_fields _ _ (VStr (py "CreateRole")) _ _).
  - vm_compute. reflexivity.
  - intros H. vm_compute in H. discriminate H.
Defined.

(** When the path of the rule leads to an identifier, the extractor returns
    it, whatever its type, under the label of the rule: a rule that reads a
    mapping returns the value found under its key, a rule that takes the
    first element of a list returns that element's field, or the empty
    string when the element has no such field. *)
Theorem extractor_returns_identifier (event_name : Value) (r : Rule) (detail : dict) :
  rule_of event_name = Some r ->
  (rule_first r = false ->
   forall v,
     traverse (source_key r :: rule_path r ++ [rule_leaf r]) (VDict detail)
     = Present v ->
     extract_resource_details (VDict detail) event_name = Ret (rule_label r, v))
  /\ (rule_first r = true ->
      forall first rest,
        traverse (source_key r :: rule_path r) (VDict detail)
        = Present (VList (VDict first :: rest)) ->
        extract_resource_details (VDict detail) event_name
        = Ret (rule_label r, lookup_or (rule_leaf r) first (VStr (py "")))).
Proof.
  intros Hrule.
  assert (Hrun : extract_resource_details (VDict detail) event_name
                 = walk (rule_path r) (rule_first r)
                     (lookup_or (source_key r) detail (VDict []))
                     (fun container =>
                        if rule_first r then
                          if truthy container then
                            obind (subscript container 0)
                              (fun first =>
                                 obind (get first (rule_leaf r) (VStr (py "")))
                                   (fun resourceValue =>
                                      Ret (rule_label r, resourceValue)))
                          else Ret (py "", VStr (py ""))
                        else
                          obind (get container (rule_leaf r) (VStr (py "")))
                            (fun resourceValue => Ret (rule_label r, resourceValue)))).
  { rewrite extract_follows_table. unfold extract_by_table. rewrite Hrule.
    unfold run_rule. rewrite !get_dict. cbn [obind].
    now rewrite rule_source_value. }
  rewrite Hrun. clear Hrun. split.
  - intros Hfirst v Hv. cbn [traverse] in Hv. unfold lookup_or at 1.
    destruct (dict_lookup (source_key r) detail) as [src|]; [|discriminate Hv].
    rewrite traverse_app in Hv.
    destruct (traverse (rule_path r) src) as [container| |] eqn:Hpath;
      try discriminate Hv.
    match goal with
    | |- walk _ _ _ ?k = _ =>
      rewrite (proj1 (walk_traverse (rule_path r) (rule_first r) src k) _ Hpath)
    end.
    rewrite Hfirst. cbn [traverse] in Hv.
    destruct container as [| | | | | |d]; try discriminate Hv.
    rewrite get_dict. unfold lookup_or.
    destruct (dict_lookup (rule_leaf r) d); [|discriminate Hv].
    now injection Hv as ->.
  - intros Hfirst first rest Hv. cbn [traverse] in Hv. unfold lookup_or at 1.
    destruct (dict_lookup (source_key r) detail) as [src|]; [|discriminate Hv].
    match goal with
    | |- walk _ _ _ ?k = _ =>
      rewrite (proj1 (walk_traverse (rule_path r) (rule_first r) src k) _ Hv)
    end.
    rewrite Hfirst. reflexivity.
Qed.

Lemma extractor_returns_identifier_witness :
  extract_resource_details
    (VDict [(py "requestParameters", VDict [(py "name", VStr (py "prod/db"))])])
    (VStr (py "CreateSecret"))
  = Ret (py "Secret_ID", VStr (py "prod/db"))
  /\ extract_resource_details
       (VDict [(py "responseElements",
                VDict [(py "loadBalancers",
                        VList [VDict [(py "dNSName", VStr (py "lb.example"))]])])])
       (VStr (py "DeleteLoadBalancer"))
     = Ret (py "LoadBalancer_ID", VStr (py "")).
Proof.
  split.
  - refine (proj1 (extractor_returns_identifier (VStr (py "CreateSecret"))
                     (mkRule [py "CreateSecret"] (py "Secret_ID") FromRequest []
                        false (py "name"))
                     [(py "requestParameters",
                       VDict [(py "name", VStr (py "prod/db"))])] _)
              eq_refl (VStr (py "prod/db")) _);
      vm_compute; reflexivity.
  - refine (proj2 (extractor_returns_identifier (VStr (py "DeleteLoadBalancer"))
                     (mkRule [py "CreateLoadBalancer"; py "DeleteLoadBalancer"]
                        (py "LoadBalancer_ID") FromResponse [py "loadBalancers"]
                        true (py "loadBalancerName"))
                     [(py "responseElements",
                       VDict [(py "loadBalancers",
                               VList [VDict [(py "dNSName", VStr (py "lb.example"))]])])]
                     _)
              eq_refl [(py "dNSName", VStr (py "lb.example"))] [] _);
      vm_compute; reflexivity.
Defined.

(** ** The actor, on every identity *)

Lemma resolve_actor_chosen (user_identity : dict) :
  resolve_actor (VDict user_identity)
  = (has_colon <- contains (py ":") (chosen_actor user_identity) ;;
     if has_colon then
       parts <- split (chosen_actor user_identity) (py ":") ;;
       subscript parts (-1)
     else Ret (chosen_actor user_identity))%outcome.
Proof.
  unfold resolve_actor, chosen_actor. rewrite get_dict. cbn [obind].
  destruct (truthy (lookup_or (py "userName") user_identity VNone));
    [|rewrite get_dict]; reflexivity.
Qed.

Lemma resolved_actor_of_identity (event : Value) (user_identity : Value) :
  traverse [py "detail"; py "userIdentity"] event = Present user_identity ->
  resolved_actor event = resolve_actor user_identity.
Proof.
  intros Hpath. unfold resolved_actor. cbn [traverse] in Hpath.
  destruct event as [| | | | | |ev]; try discriminate Hpath.
  rewrite get_dict. unfold lookup_or.
  destruct (dict_lookup (py "detail") ev) as [[| | | | | |d]|];
    try discriminate Hpath.
  cbn [obind]. rewrite get_dict. unfold lookup_or.
  destruct (dict_lookup (py "userIdentity") d) as [ui|]; [|discriminate Hpath].
  now injection Hpath as ->.
Qed.

Lemma strip_namespace_result (s r : pystr) :
  (has_colon <- contains (py ":") (VStr s) ;;
   if has_colon then
     parts <- split (VStr s) (py ":") ;;
     subscript parts (-1)
   else Ret (VStr s))%outcome = Ret (VStr r) <->
  after_last_colon s r.
Proof.
  destruct (strip_namespace s) as [r0 [E Hr0]]. rewrite E. split.
  - intros H. now injection H as <-.
  - intros H. now rewrite (after_last_colon_unique s r r0 H Hr0).
Qed.

Lemma after_last_colon_no_colon (s r : pystr) : after_last_colon s r -> ~ In 58 r.
Proof. intros [[H ->]|[a [_ H]]]; exact H. Qed.

(** A resolved actor that is a string holds no colon, and comes from a
    string: it is what follows the last colon of the value line 108 chose
    (that value itself when it has no colon). *)
Theorem resolved_actor_has_no_colon (user_identity : Value) (r : pystr) :
  resolve_actor user_identity = Ret (VStr r) ->
  ~ In 58 r
  /\ exists ui s,
      user_identity = VDict ui /\ chosen_actor ui = VStr s /\ after_last_colon s r.
Proof.
  destruct user_identity as [| | | | | |ui]; try discriminate.
  rewrite resolve_actor_chosen.
  destruct (chosen_actor ui) as [| | | |s|l|d] eqn:Hchosen; try discriminate.
  - intros H. apply strip_namespace_result in H.
    split; [now apply (after_last_colon_no_colon s)|]. now exists ui, s.
  - cbn [contains obind]. destruct (existsb _ l); discriminate.
  - cbn [contains obind]. destruct (dict_lookup (py ":") d); discriminate.
Qed.

Lemma resolved_actor_has_no_colon_witness :
  ~ In 58 (py "assumed-role/Deploy/carol@xyz.com")
  /\ exists ui s,
      VDict [(py "principalId", VStr (py "ignored"));
             (py "userName",
              VStr (py "arn:aws:sts::123:assumed-role/Deploy/carol@xyz.com"))]
      = VDict ui
      /\ chosen_actor ui = VStr s
      /\ after_last_colon s (py "assumed-role/Deploy/carol@xyz.com").
Proof.
  refine (resolved_actor_has_no_colon
            (VDict [(py "principalId", VStr (py "ignored"));
                    (py "userName",
                     VStr (py "arn:aws:sts::123:assumed-role/Deploy/carol@xyz.com"))])
            (py "assumed-role/Deploy/carol@xyz.com") _).
  vm_compute. reflexivity.
Defined.

(** A [userName] that is there but falsy, of whatever type ([null], "", 0,
    [false], an empty list or mapping), counts as absent: the actor comes
    from [principalId], and is "UnknownUser" when there is none. *)
Theorem falsy_user_name_falls_back (user_identity : dict) (v : Value) :
  dict_lookup (py "userName") user_identity = Some v ->
  truthy v = false ->
  (forall p,
      dict_lookup (py "principalId") user_identity = Some (VStr p) ->
      exists r, resolve_actor (VDict user_identity) = Ret (VStr r)
                /\ after_last_colon p r)
  /\ (dict_lookup (py "principalId") user_identity = None ->
      resolve_actor (VDict user_identity) = Ret (VStr (py "UnknownUser"))).
Proof.
  intros Hname Hfalsy.
  assert (Hchosen : chosen_actor user_identity
                    = lookup_or (py "principalId") user_identity
                        (VStr (py "UnknownUser"))).
  { unfold chosen_actor, lookup_or at 1. rewrite Hname. now rewrite Hfalsy. }
  rewrite resolve_actor_chosen, Hchosen. unfold lookup_or. split.
  - intros p ->. apply strip_namespace.
  - intros ->. reflexivity.
Qed.

Lemma falsy_user_name_falls_back_witness :
  (exists r,
      resolve_actor
        (VDict [(py "userName", VNone);
                (py "principalId", VStr (py "AROA123:dave@xyz.com"))])
      = Ret (VStr r)
      /\ after_last_colon (py "AROA123:dave@xyz.com") r).
Proof.
  exact (proj1 (falsy_user_name_falls_back
                  [(py "userName", VNone);
                   (py "principalId", VStr (py "AROA123:dave@xyz.com"))]
                  VNone eq_refl eq_refl)
           (py "AROA123:dave@xyz.com") eq_refl).
Defined.

(** ** Every run of the handler *)

Lemma send_trace (rt : Runtime) (text : pystr) (ts : list Effect) :
  send_slack_notification rt (VDict [(py "text", VStr text)]) = (ts, Ret tt) ->
  (SLACK_WEBHOOK_URL rt = []
   /\ ts = [Log error (py "SLACK_WEBHOOK_URL not set in environment variables.") []])
  \/ (SLACK_WEBHOOK_URL rt <> []
      /\ request_error rt (SLACK_WEBHOOK_URL rt) = None
      /\ ts = [UrlOpen (slack_request rt text);
               delivery_record (urlopen rt (slack_request rt text))]).
Proof.
  intros H.
  assert (Hurl : SLACK_WEBHOOK_URL rt = [] \/ SLACK_WEBHOOK_URL rt <> [])
    by (destruct (SLACK_WEBHOOK_URL rt); [now left|now right]).
  destruct Hurl as [Hurl|Hurl].
  - left. rewrite (send_unconfigured rt _ Hurl) in H. now injection H as <-.
  - right. destruct (request_error rt (SLACK_WEBHOOK_URL rt)) as [e|] eqn:Hreq.
    + rewrite (send_rejected rt text e Hurl Hreq) in H. discriminate H.
    + rewrite (send_configured rt _ _ Hurl (payload_encodes rt text) Hreq) in H.
      cbv zeta in H. injection H as <-. now repeat split.
Qed.

(** The six ways an invocation can go, each with its whole trace and its
    result. *)
Lemma handler_run (rt : Runtime) (event context : Value) :
  (exists e,
      (resolved_actor event = Raise e
       \/ exists u, resolved_actor event = Ret u
                    /\ contains (py "@xyz.com") u = Raise e)
      /\ lambda_handler rt event context
         = ([received rt event; exc_record e], Ret (failed e)))
  \/ (exists u,
         resolved_actor event = Ret u
         /\ contains (py "@xyz.com") u = Ret false
         /\ lambda_handler rt event context
            = ([received rt event;
                Log info
                  (py "User %s does not match notification criteria. Skipping.") [u]],
               Ret skipped))
  \/ (exists u e,
         resolved_actor event = Ret u
         /\ contains (py "@xyz.com") u = Ret true
         /\ lambda_handler rt event context
            = ([received rt event; Call Fextract_resource_details; exc_record e],
               Ret (failed e)))
  \/ (exists u k v,
         resolved_actor event = Ret u
         /\ contains (py "@xyz.com") u = Ret true
         /\ SLACK_WEBHOOK_URL rt = []
         /\ lambda_handler rt event context
            = ([received rt event; Call Fextract_resource_details;
                Log info (py "Sending Slack alert: %s")
                  [VDict [(py "text", VStr (message_text rt event u k v))]];
                Call Fsend_slack_notification;
                Log error (py "SLACK_WEBHOOK_URL not set in environment variables.")
                  []],
               Ret (notified rt (message_text rt event u k v))))
  \/ (exists u k v,
         resolved_actor event = Ret u
         /\ contains (py "@xyz.com") u = Ret true
         /\ SLACK_WEBHOOK_URL rt <> []
         /\ request_error rt (SLACK_WEBHOOK_URL rt) = None
         /\ lambda_handler rt event context
            = ([received rt event; Call Fextract_resource_details;
                Log info (py "Sending Slack alert: %s")
                  [VDict [(py "text", VStr (message_text rt event u k v))]];
                Call Fsend_slack_notification;
                UrlOpen (slack_request rt (message_text rt event u k v));
                delivery_record
                  (urlopen rt (slack_request rt (message_text rt event u k v)))],
               Ret (notified rt (message_text rt event u k v))))
  \/ (exists u k v e,
         resolved_actor event = Ret u
         /\ contains (py "@xyz.com") u = Ret true
         /\ SLACK_WEBHOOK_URL rt <> []
         /\ request_error rt (SLACK_WEBHOOK_URL rt) = Some e
         /\ lambda_handler rt event context
            = ([received rt event; Call Fextract_resource_details;
                Log info (py "Sending Slack alert: %s")
                  [VDict [(py "text", VStr (message_text rt event u k v))]];
                Call Fsend_slack_notification; exc_record e],
               Ret (failed e))).
Proof.
  destruct (resolved_actor event) as [u|e] eqn:Hactor.
  2:{ left. exists e. split; [now left|].
      apply (lambda_handler_catches rt event context [] e).
      now apply handler_body_unresolved. }
  destruct (contains (py "@xyz.com") u) as [[|]|e] eqn:Hfilter.
  - destruct (extract_resource_details (detail_of event)
                (detail_field event (py "eventName") (py "UnknownEvent")))
      as [[k v]|e] eqn:Hextract.
    + destruct (send_cases rt (message_text rt event u k v))
        as [ts [[[]|e] [Hsend Hout]]].
      * destruct (send_trace rt _ ts Hsend) as [[Hurl ->]|(Hurl & Hreq & ->)].
        -- do 3 right. left. exists u, k, v. repeat (split; [easy|]).
           exact (handler_notifies rt event context u k v _
                    Hactor Hfilter Hextract Hsend).
        -- do 4 right. left. exists u, k, v. repeat (split; [easy|]).
           exact (handler_notifies rt event context u k v _
                    Hactor Hfilter Hextract Hsend).
      * destruct Hout as (Hurl & Hreq & ->).
        do 5 right. exists u, k, v, e. repeat (split; [easy|]).
        apply (lambda_handler_catches rt event context
                 [Call Fextract_resource_details;
                  Log info (py "Sending Slack alert: %s")
                    [VDict [(py "text", VStr (message_text rt event u k v))]];
                  Call Fsend_slack_notification] e).
        rewrite (handler_body_resolved _ _ _ Hactor).
        unfold message_text in Hsend |- *.
        exact (delivery_raises rt _ _ _ _ _ _ k v [] e Hfilter Hextract Hsend).
    + do 2 right. left. exists u, e. repeat (split; [easy|]).
      apply (lambda_handler_catches rt event context
               [Call Fextract_resource_details] e).
      rewrite (handler_body_resolved _ _ _ Hactor). now apply extraction_raises.
  - right. left. exists u. repeat (split; [easy|]).
    now apply handler_skips.
  - left. exists e. split; [right; now exists u|].
    apply (lambda_handler_catches rt event context [] e).
    rewrite (handler_body_resolved _ _ _ Hactor). now apply filter_raises.
Qed.

Lemma extraction_called (rt : Runtime) (event context u : Value) (b : bool) :
  resolved_actor event = Ret u ->
  contains (py "@xyz.com") u = Ret b ->
  calls Fextract_resource_details (fst (lambda_handler rt event context)) = b.
Proof.
  intros Hactor Hfilter.
  destruct (handler_run rt event context)
    as [(e & [Ha|(u' & Ha & Hc)] & ->)
       |[(u' & Ha & Hc & ->)
        |[(u' & e & Ha & Hc & ->)
         |[(u' & k & v & Ha & Hc & _ & ->)
          |[(u' & k & v & Ha & Hc & _ & _ & ->)
           |(u' & k & v & e & Ha & Hc & _ & _ & ->)]]]]];
    rewrite Ha in Hactor; try discriminate Hactor;
    injection Hactor as ->; rewrite Hc in Hfilter; try discriminate Hfilter;
    injection Hfilter as <-; reflexivity.
Qed.

(** The extractor is called exactly when the resolved actor passes the
    filter: never for an actor that fails it, always for one that passes,
    whatever the extraction and the delivery then do. *)
Theorem extraction_runs_iff_filter_passes (rt : Runtime) (event context u : Value)
    (b : bool) :
  resolved_actor event = Ret u ->
  contains (py "@xyz.com") u = Ret b ->
  calls Fextract_resource_details (fst (lambda_handler rt event context)) = b.
Proof. exact (extraction_called rt event context u b). Qed.

Lemma extraction_runs_iff_filter_passes_witness :
  calls Fextract_resource_details
    (fst (lambda_handler malformed_url
            (sample_event (py "CreateUser")
               (VDict [(py "userName", VStr (py "alice@xyz.com"))]) VNone)
            VNone))
  = true.
Proof.
  refine (extraction_runs_iff_filter_passes malformed_url
            (sample_event (py "CreateUser")
               (VDict [(py "userName", VStr (py "alice@xyz.com"))]) VNone)
            VNone (VStr (py "alice@xyz.com")) true _ _);
    vm_compute; reflexivity.
Defined.

(** An invocation opens at most one connection.  When it opens one, the
    delivery step was called, the request goes to the configured URL with
    the JSON content type, and its body is [json.dumps] of a mapping with
    the single key "text"; with no URL configured it opens none. *)
Theorem at_most_one_request (rt : Runtime) (event context : Value) :
  (outbound (fst (lambda_handler rt event context)) = []
   \/ exists text,
       outbound (fst (lambda_handler rt event context))
       = [mkRequest (SLACK_WEBHOOK_URL rt)
            (json_dumps rt (VDict [(py "text", VStr text)]))
            [(py "Content-Type", py "application/json")]]
       /\ calls Fsend_slack_notification (fst (lambda_handler rt event context))
          = true
       /\ SLACK_WEBHOOK_URL rt <> [])
  /\ (SLACK_WEBHOOK_URL rt = [] ->
      outbound (fst (lambda_handler rt event context)) = []).
Proof.
  destruct (handler_run rt event context)
    as [(e & _ & ->)
       |[(u & _ & _ & ->)
        |[(u & e & _ & _ & ->)
         |[(u & k & v & _ & _ & _ & ->)
          |[(u & k & v & _ & _ & Hurl & _ & ->)
           |(u & k & v & e & _ & _ & _ & _ & ->)]]]]];
    try (split; [left; reflexivity|reflexivity]).
  assert (Hout : outbound
                   [received rt event; Call Fextract_resource_details;
                    Log info (py "Sending Slack alert: %s")
                      [VDict [(py "text", VStr (message_text rt event u k v))]];
                    Call Fsend_slack_notification;
                    UrlOpen (slack_request rt (message_text rt event u k v));
                    delivery_record
                      (urlopen rt (slack_request rt (message_text rt event u k v)))]
                 = [slack_request rt (message_text rt event u k v)])
    by (cbn [fst outbound received exc_record]; unfold delivery_record;
        now destruct (urlopen rt _)).
  cbn [fst]. rewrite Hout. split.
  - right. exists (message_text rt event u k v). now repeat split.
  - intros H. contradiction.
Qed.

(** [logger.exception] is called exactly when the result has status 500,
    and the first record of every invocation is the received event. *)
Theorem exception_logged_iff_500 (rt : Runtime) (event context : Value) :
  logs_exception (fst (lambda_handler rt event context))
  = match snd (lambda_handler rt event context) with
    | Ret r => (statusCode r =? 500)%Z
    | Raise _ => false
    end
  /\ hd_error (fst (lambda_handler rt event context)) = Some (received rt event).
Proof.
  destruct (handler_run rt event context)
    as [(e & _ & ->)
       |[(u & _ & _ & ->)
        |[(u & e & _ & _ & ->)
         |[(u & k & v & _ & _ & _ & ->)
          |[(u & k & v & _ & _ & _ & _ & ->)
           |(u & k & v & e & _ & _ & _ & _ & ->)]]]]];
    try (split; reflexivity).
  split; [|reflexivity].
  cbn [fst snd logs_exception existsb received notified statusCode].
  unfold delivery_record. now destruct (urlopen rt _).
Qed.

(** ** Malformed envelopes and actors *)

Lemma handler_fails_unresolved (rt : Runtime) (event context : Value) (e : Exc) :
  resolved_actor event = Raise e ->
  lambda_handler rt event context
  = ([received rt event; exc_record e], Ret (failed e)).
Proof.
  intros H. apply (lambda_handler_catches rt event context [] e).
  now apply handler_body_unresolved.
Qed.

(** An event, a [detail] or a [userIdentity] that is there and is not a
    mapping ([null], a string, a list, a number) ends the invocation with
    status 500 and the [AttributeError] message naming its type; nothing is
    extracted and nothing is sent. *)
Theorem non_mapping_envelope_fails (rt : Runtime) (event context v : Value) :
  event = v
  \/ traverse [py "detail"] event = Present v
  \/ traverse [py "detail"; py "userIdentity"] event = Present v ->
  is_dict v = false ->
  lambda_handler rt event context
  = ([received rt event;
      Log exception (py "Error processing event: %s")
        [VStr (py "'" ++ type_name v ++ py "' object has no attribute 'get'")]],
     Ret (mkResult 500
            (py "Error processing event: "
             ++ py "'" ++ type_name v ++ py "' object has no attribute 'get'"))).
Proof.
  intros Hwhere Hv.
  apply (handler_fails_unresolved rt event context (no_attribute v (py "get"))).
  destruct Hwhere as [<-|[H|H]].
  - unfold resolved_actor. now destruct event.
  - unfold resolved_actor. cbn [traverse] in H.
    destruct event as [| | | | | |ev]; try discriminate H.
    rewrite get_dict. unfold lookup_or.
    destruct (dict_lookup (py "detail") ev) as [d|]; [|discriminate H].
    injection H as ->. now destruct v.
  - rewrite (resolved_actor_of_identity event v H).
    unfold resolve_actor. now destruct v.
Qed.

Lemma non_mapping_envelope_fails_witness :
  lambda_handler reachable (VDict [(py "detail", VNone)]) VNone
  = ([received reachable (VDict [(py "detail", VNone)]);
      Log exception (py "Error processing event: %s")
        [VStr (py "'" ++ type_name VNone ++ py "' object has no attribute 'get'")]],
     Ret (mkResult 500
            (py "Error processing event: "
             ++ py "'" ++ type_name VNone ++ py "' object has no attribute 'get'"))).
Proof.
  exact (non_mapping_envelope_fails reachable (VDict [(py "detail", VNone)]) VNone
           VNone (or_intror (or_introl eq_refl)) eq_refl).
Defined.



(** The filter looks only at what follows the last colon of the chosen
    name: the event is processed exactly when that suffix contains the
    marker, whatever stands before the colon. *)
Theorem filter_reads_after_last_colon (rt : Runtime) (event context : Value)
    (user_identity : dict) (a b : pystr) :
  traverse [py "detail"; py "userIdentity"] event = Present (VDict user_identity) ->
  chosen_actor user_identity = VStr (a ++ 58 :: b) ->
  ~ In 58 b ->
  calls Fextract_resource_details (fst (lambda_handler rt event context))
  = str_contains (py "@xyz.com") b.
Proof.
  intros Hpath Hchosen Hb.
  apply (extraction_called rt event context (VStr b)); [|reflexivity].
  rewrite (resolved_actor_of_identity event _ Hpath), resolve_actor_chosen, Hchosen.
  apply strip_namespace_result. right. now exists a.
Qed.

Lemma filter_reads_after_last_colon_witness :
  calls Fextract_resource_details
    (fst (lambda_handler reachable
            (sample_event (py "RunInstances")
               (VDict [(py "userName", VStr (py "alice@xyz.com:session-1"))])
               one_instance)
            VNone))
  = str_contains (py "@xyz.com") (py "session-1").
Proof.
  refine (filter_reads_after_last_colon reachable
            (sample_event (py "RunInstances")
               (VDict [(py "userName", VStr (py "alice@xyz.com:session-1"))])
               one_instance)
            VNone [(py "userName", VStr (py "alice@xyz.com:session-1"))]
            (py "alice@xyz.com") (py "session-1") eq_refl _ _).
  - vm_compute. reflexivity.
  - intros H. vm_compute in H. repeat (destruct H as [H|H]; [discriminate H|]).
    exact H.
Defined.

(** An event whose detail carries none of [eventName], [awsRegion],
    [eventTime] and [eventSource] is still delivered for an actor that
    passes the filter: the message shows "UnknownEvent" and "Unknown" in
    their places and has no resource line. *)
Theorem missing_fields_get_defaults (rt : Runtime) (event context user_name : Value)
    (detail : dict) :
  traverse [py "detail"] event = Present (VDict detail) ->
  dict_lookup (py "eventName") detail = None ->
  dict_lookup (py "awsRegion") detail = None ->
  dict_lookup (py "eventTime") detail = None ->
  dict_lookup (py "eventSource") detail = None ->
  resolved_actor event = Ret user_name ->
  contains (py "@xyz.com") user_name = Ret true ->
  SLACK_WEBHOOK_URL rt = [] \/ request_error rt (SLACK_WEBHOOK_URL rt) = None ->
  snd (lambda_handler rt event context)
  = Ret (notified rt
           (header_line ++ user_line rt user_name
            ++ source_line rt (VStr (py "Unknown"))
            ++ event_line rt (VStr (py "UnknownEvent"))
            ++ region_line rt (VStr (py "Unknown"))
            ++ time_line rt (VStr (py "Unknown")))).
Proof.
  intros Hdetail Hname Hregion Htime Hsource Hactor Hfilter Hdelivery.
  assert (Hd : detail_of event = VDict detail).
  { cbn [traverse] in Hdetail. destruct event as [| | | | | |ev];
      try discriminate Hdetail.
    cbn [detail_of]. unfold lookup_or.
    destruct (dict_lookup (py "detail") ev); [|discriminate Hdetail].
    now injection Hdetail as ->. }
  assert (Hfield : forall k default,
             dict_lookup k detail = None -> detail_field event k default = VStr default).
  { intros k default Hk. unfold detail_field. rewrite Hd. unfold lookup_or.
    now rewrite Hk. }
  assert (Hunreg : ~ In (py "UnknownEvent") registered_event_names).
  { intros H. vm_compute in H.
    repeat (destruct H as [H|H]; [discriminate H|]). exact H. }
  assert (Hextract :
            extract_resource_details (detail_of event)
              (detail_field event (py "eventName") (py "UnknownEvent"))
            = Ret (py "", VStr (py ""))).
  { rewrite Hd, (Hfield _ _ Hname). now apply extract_default. }
  destruct (send_returns rt (message_text rt event user_name (py "") (VStr (py "")))
              Hdelivery) as [ts [Hsend _]].
  rewrite (handler_notifies rt event context user_name (py "") (VStr (py "")) ts
             Hactor Hfilter Hextract Hsend).
  cbn [snd]. unfold message_text.
  rewrite render_lines, (Hfield _ _ Hname), (Hfield _ _ Hregion),
    (Hfield _ _ Htime), (Hfield _ _ Hsource).
  cbn [List.concat]. now rewrite app_nil_r.
Qed.

Lemma missing_fields_get_defaults_witness :
  snd (lambda_handler unconfigured
         (VDict [(py "detail",
                  VDict [(py "userIdentity",
                          VDict [(py "userName", VStr (py "erin@xyz.com"))])])])
         VNone)
  = Ret (notified unconfigured
           (header_line ++ user_line unconfigured (VStr (py "erin@xyz.com"))
            ++ source_line unconfigured (VStr (py "Unknown"))
            ++ event_line unconfigured (VStr (py "UnknownEvent"))
            ++ region_line unconfigured (VStr (py "Unknown"))
            ++ time_line unconfigured (VStr (py "Unknown")))).
Proof.
  refine (missing_fields_get_defaults unconfigured
            (VDict [(py "detail",
                     VDict [(py "userIdentity",
                             VDict [(py "userName", VStr (py "erin@xyz.com"))])])])
            VNone (VStr (py "erin@xyz.com"))
            [(py "userIdentity", VDict [(py "userName", VStr (py "erin@xyz.com"))])]
            eq_refl _ _ _ _ _ _ _);
    try (vm_compute; reflexivity).
  left. vm_compute. reflexivity.
Defined.

(** ** The delivery step and its payload *)

(** The delivery step, on the message the handler builds: with no URL it
    logs and returns; with a URL the request constructor rejects it raises
    that exception before any connection is opened; otherwise it opens one
    connection and returns, whether [urlopen] gave a response or raised.
    Encoding the payload never fails. *)
Theorem delivery_step_outcomes (rt : Runtime) (text : pystr) :
  send_slack_notification rt (VDict [(py "text", VStr text)])
  = match SLACK_WEBHOOK_URL rt with
    | [] =>
      ([Log error (py "SLACK_WEBHOOK_URL not set in environment variables.") []],
       Ret tt)
    | _ :: _ =>
      match request_error rt (SLACK_WEBHOOK_URL rt) with
      | Some e => ([], Raise e)
      | None =>
        ([UrlOpen (slack_request rt text);
          match urlopen rt (slack_request rt text) with
          | Ret status =>
            Log info (py "Slack Notification Sent! Response Code: %s") [VInt status]
          | Raise e =>
            Log error (py "Error sending Slack notification: %s") [VStr (exc_msg e)]
          end],
         Ret tt)
      end
    end.
Proof.
  destruct (SLACK_WEBHOOK_URL rt) as [|c url] eqn:Hurl.
  - now apply send_unconfigured.
  - assert (Hne : SLACK_WEBHOOK_URL rt <> []) by congruence.
    rewrite <- Hurl.
    destruct (request_error rt (SLACK_WEBHOOK_URL rt)) as [e|] eqn:Hreq.
    + now apply send_rejected.
    + exact (send_configured rt _ _ Hne (payload_encodes rt text) Hreq).
Qed.

Lemma literal_ascii (s : string) :
  forallb (fun c => c <? 128) (py s) = true -> plain_ascii (py s).
Proof.
  intros H. apply Forall_forall. intros c Hc.
  rewrite forallb_forall in H. now apply N.ltb_lt, H.
Qed.

(** Whatever characters the event carries, the body of the request and the
    body of the result are plain ASCII: [json.dumps] escapes everything
    else, so the UTF-8 encoding of the payload is the payload itself. *)
Theorem payload_and_body_are_ascii (rt : Runtime) (text : pystr) :
  plain_ascii (req_data (slack_request rt text))
  /\ plain_ascii (body (notified rt text))
  /\ encode_utf8 (json_dumps rt (VDict [(py "text", VStr text)]))
     = Ret (req_data (slack_request rt text)).
Proof.
  split; [|split].
  - cbn [req_data slack_request json_dumps map str_join].
    repeat
      match goal with
      | |- plain_ascii (_ ++ _) => apply Forall_app; split
      | |- Forall _ (_ ++ _) => apply Forall_app; split
      | |- Forall _ (encode_basestring_ascii _) => apply encode_basestring_ascii_ascii
      | |- Forall _ (py _) => now apply literal_ascii
      end.
  - cbn [body notified json_dumps map str_join].
    repeat
      match goal with
      | |- plain_ascii (_ ++ _) => apply Forall_app; split
      | |- Forall _ (_ ++ _) => apply Forall_app; split
      | |- Forall _ (encode_basestring_ascii _) => apply encode_basestring_ascii_ascii
      | |- Forall _ (py _) => now apply literal_ascii
      end.
  - apply payload_encodes.
Qed.

(** ** What is sent, logged and returned *)

(** Whenever a request is sent, its payload carries the very text that the
    "Sending Slack alert" record logged before and that the result echoes
    under "slack_message"; the result is then the processed one, whatever
    the connection gave. *)
Theorem sent_message_is_echoed (rt : Runtime) (event context : Value) (req : Request) :
  outbound (fst (lambda_handler rt event context)) = [req] ->
  exists text,
    req = slack_request rt text
    /\ snd (lambda_handler rt event context) = Ret (notified rt text)
    /\ In (Log info (py "Sending Slack alert: %s") [VDict [(py "text", VStr text)]])
         (fst (lambda_handler rt event context)).
Proof.
  destruct (handler_run rt event context)
    as [(e & _ & ->)
       |[(u & _ & _ & ->)
        |[(u & e & _ & _ & ->)
         |[(u & k & v & _ & _ & _ & ->)
          |[(u & k & v & _ & _ & _ & _ & ->)
           |(u & k & v & e & _ & _ & _ & _ & ->)]]]]];
    try (intros H; discriminate H).
  intros H. exists (message_text rt event u k v).
  assert (Hreq : req = slack_request rt (message_text rt event u k v)).
  { cbn [fst outbound received] in H. unfold delivery_record in H.
    destruct (urlopen rt _); cbn [outbound] in H; now injection H as <-. }
  split; [exact Hreq|]. split; [reflexivity|].
  cbn [fst]. right. right. now left.
Qed.

Lemma sent_message_is_echoed_witness :
  exists text,
    slack_request unreachable
      (message_text unreachable
         (sample_event (py "RunInstances")
            (VDict [(py "userName", VStr (py "alice@xyz.com"))]) one_instance)
         (VStr (py "alice@xyz.com")) (py "Instance_ID") (VStr (py "i-0abc")))
    = slack_request unreachable text
    /\ snd (lambda_handler unreachable
              (sample_event (py "RunInstances")
                 (VDict [(py "userName", VStr (py "alice@xyz.com"))]) one_instance)
              VNone)
       = Ret (notified unreachable text)
    /\ In (Log info (py "Sending Slack alert: %s") [VDict [(py "text", VStr text)]])
         (fst (lambda_handler unreachable
                 (sample_event (py "RunInstances")
                    (VDict [(py "userName", VStr (py "alice@xyz.com"))]) one_instance)
                 VNone)).
Proof.
  refine (sent_message_is_echoed unreachable
            (sample_event (py "RunInstances")
               (VDict [(py "userName", VStr (py "alice@xyz.com"))]) one_instance)
            VNone _ _).
  vm_compute. reflexivity.
Defined.

(** ** Actors that are absent, or not strings *)

(** An event with no [detail], or a detail with no [userIdentity], has the
    actor "UnknownUser" and is skipped with status 200: so is the empty
    event. *)
Theorem absent_identity_is_skipped (rt : Runtime) (event context : Value) :
  traverse [py "detail"; py "userIdentity"] event = Absent ->
  lambda_handler rt event context
  = ([received rt event;
      Log info (py "User %s does not match notification criteria. Skipping.")
        [VStr (py "UnknownUser")]],
     Ret (mkResult 200 (py "User not in notify list."))).
Proof.
  intros Hpath.
  apply (handler_skips rt event context (VStr (py "UnknownUser"))); [|reflexivity].
  unfold resolved_actor. cbn [traverse] in Hpath.
  destruct event as [| | | | | |ev]; try discriminate Hpath.
  rewrite get_dict. unfold lookup_or.
  destruct (dict_lookup (py "detail") ev) as [[| | | | | |d]|];
    try discriminate Hpath; [|reflexivity].
  cbn [obind]. rewrite get_dict. unfold lookup_or.
  destruct (dict_lookup (py "userIdentity") d); [discriminate Hpath|reflexivity].
Qed.

Lemma absent_identity_is_skipped_witness :
  lambda_handler reachable (VDict []) VNone
  = ([received reachable (VDict []);
      Log info (py "User %s does not match notification criteria. Skipping.")
        [VStr (py "UnknownUser")]],
     Ret (mkResult 200 (py "User not in notify list."))).
Proof.
  exact (absent_identity_is_skipped reachable (VDict []) VNone eq_refl).
Defined.

(** A chosen actor that is a list is not rejected by type: when no element
    is ":" it is kept as it is, and the filter becomes a membership test, so
    the event is processed exactly when some element is the string
    "@xyz.com" itself. *)
Theorem list_actor_filter_is_membership (rt : Runtime) (event context : Value)
    (user_identity : dict) (l : list Value) :
  traverse [py "detail"; py "userIdentity"] event = Present (VDict user_identity) ->
  chosen_actor user_identity = VList l ->
  existsb (fun x => eq_str x (py ":")) l = false ->
  resolved_actor event = Ret (VList l)
  /\ calls Fextract_resource_details (fst (lambda_handler rt event context))
     = existsb (fun x => eq_str x (py "@xyz.com")) l.
Proof.
  intros Hpath Hchosen Hcolon.
  assert (Hactor : resolved_actor event = Ret (VList l)).
  { rewrite (resolved_actor_of_identity event _ Hpath), resolve_actor_chosen, Hchosen.
    cbn [contains obind]. now rewrite Hcolon. }
  split; [exact Hactor|].
  now apply (extraction_called rt event context (VList l)).
Qed.

Lemma list_actor_filter_is_membership_witness :
  resolved_actor
    (sample_event (py "RunInstances")
       (VDict [(py "userName", VList [VStr (py "bob@xyz.com")])]) one_instance)
  = Ret (VList [VStr (py "bob@xyz.com")])
  /\ calls Fextract_resource_details
       (fst (lambda_handler reachable
               (sample_event (py "RunInstances")
                  (VDict [(py "userName", VList [VStr (py "bob@xyz.com")])])
                  one_instance)
               VNone))
     = existsb (fun x => eq_str x (py "@xyz.com")) [VStr (py "bob@xyz.com")].
Proof.
  exact (list_actor_filter_is_membership reachable
           (sample_event (py "RunInstances")
              (VDict [(py "userName", VList [VStr (py "bob@xyz.com")])]) one_instance)
           VNone [(py "userName", VList [VStr (py "bob@xyz.com")])]
           [VStr (py "bob@xyz.com")] eq_refl eq_refl eq_refl).
Defined.
